(** * mywc: line, word and byte counts, with [//] comments left out

    A shallow embedding of [mywc.c] and the properties of its counting
    scan, of its comment-exclusion pre-pass and of its driver.

    Conventions of the embedding.
    - A stream opened with [fopen] is the list of the bytes that are still
      to be read; [fgetc] takes the head of the list, and returns [EOF] on
      the empty list, as often as it is asked.
    - A C [int] is a [Z] kept in the range of a 32-bit two's complement
      integer by [to_int] after every addition and subtraction.
    - The loops of the source are structural recursions on the bytes that
      remain; a nested loop is a second function of a mutual fixpoint, and
      the empty list is the case in which [fgetc] returns [EOF].
    - [iswspace] belongs to the C library and is a parameter; [wspace] is
      the function of the source.
    - The calls made by [main] run in a small state monad over the globals
      of the program, its standard output and the files; [exit] ends a
      run.

    The file has two parts: the program and the definitions that the
    statements need, then the properties. *)

From Stdlib Require Import ZArith List Bool Lia String Ascii.
From Stdlib Require Import Strings.Byte.
Import ListNotations.
Local Open Scope Z_scope.

(** ** Machine integers *)

Definition INT_MAX : Z := 2147483647.
Definition INT_MIN : Z := -2147483648.

(** The value of a 32-bit [int] that holds [z] modulo [2^32]. *)
Definition to_int (z : Z) : Z := (z + 2147483648) mod 4294967296 - 2147483648.

Definition int_add (a b : Z) : Z := to_int (a + b).
Definition int_sub (a b : Z) : Z := to_int (a - b).

(** [x++] and [x--] on an [int]. *)
Definition incr (x : Z) : Z := int_add x 1.
Definition decr (x : Z) : Z := int_sub x 1.

(** ** Bytes and streams *)

Definition EOF : Z := -1.

(** The [int] that [fgetc] returns for a byte: its value as an
    [unsigned char]. *)
Definition code (b : byte) : Z := Z.of_N (Byte.to_N b).

(** An open stream: the bytes not read yet. *)
Definition FILE : Type := list byte.

Definition fgetc (f : FILE) : Z * FILE :=
  match f with
  | [] => (EOF, [])
  | b :: f' => (code b, f')
  end.

(** The bytes of a string literal. *)
Definition bytes (s : string) : list byte := list_byte_of_string s.

Definition slash : Z := 47.     (* '/' *)
Definition newline : Z := 10.   (* '\n' *)

(** ** The narrow white space test, [wspace] (line 116) *)

Definition wspace (c : Z) : bool :=
  (c =? 9) || (c =? 10) || (c =? 11) || (c =? 12) || (c =? 13) || (c =? 32).

(** ** The counting scan: the loop of [wc] (lines 121 to 138) *)

Record counts : Type := mkCounts { lines : Z; words : Z; chars : Z }.

Definition incr_lines (n : counts) : counts :=
  mkCounts (incr (lines n)) (words n) (chars n).
Definition incr_words (n : counts) : counts :=
  mkCounts (lines n) (incr (words n)) (chars n).
Definition incr_chars (n : counts) : counts :=
  mkCounts (lines n) (words n) (incr (chars n)).

Section CountingScan.

(** [iswspace] comes from the C library ([wctype.h]); the scan is
    stated for any such test. *)
Variable iswspace : Z -> bool.

(** [wc_scan] is the outer loop (line 127), about to call [fgetc];
    [wc_word] is the inner loop (line 130), about to call [fgetc],
    followed by lines 133 to 137 once the inner loop is left.

    At the end of the stream the inner loop is left with [c = EOF]:
    [wspace EOF] is false, the word is counted, [EOF] is not a newline,
    and the outer loop reads [EOF] again and stops. *)
Fixpoint wc_scan (f : FILE) (n : counts) : counts :=
  match f with
  | [] => n
  | b :: f' =>
      let c := code b in
      let n := incr_chars n in
      if negb (iswspace c) then wc_word f' n
      else wc_scan f' (if c =? newline then incr_lines n else n)
  end
with wc_word (f : FILE) (n : counts) : counts :=
  match f with
  | [] => incr_words n
  | b :: f' =>
      let c := code b in
      if negb (iswspace c) && negb (c =? EOF) then wc_word f' (incr_chars n)
      else
        let n := if wspace c then incr_chars n else n in
        let n := incr_words n in
        let n := if c =? newline then incr_lines n else n in
        wc_scan f' n
  end.

(** The three locals of [wc] after the loop, counted from zero. *)
Definition wc_count (f : FILE) : counts := wc_scan f (mkCounts 0 0 0).

(** Number of newline bytes of a stream. *)
Fixpoint count_newlines (s : list byte) : Z :=
  match s with
  | [] => 0
  | b :: r => (if code b =? newline then 1 else 0) + count_newlines r
  end.

(** Number of maximal runs of bytes that [iswspace] rejects: a run
    starts at a rejected byte that is the first byte of the stream or
    follows an accepted byte.  [prev_space] tells whether the byte before
    the head of the list was white space (or the start of the stream). *)
Fixpoint run_starts (prev_space : bool) (s : list byte) : Z :=
  match s with
  | [] => 0
  | b :: r =>
      (if prev_space && negb (iswspace (code b)) then 1 else 0)
      + run_starts (iswspace (code b)) r
  end.

Definition count_runs (s : list byte) : Z := run_starts true s.

End CountingScan.

(** The classification of a C library whose wide white space is the six
    bytes of [wspace] and nothing else below 256. *)
Definition iswspace_C (c : Z) : bool := wspace c.

(** The classification of a C library that also takes U+0085 (NEL) and
    U+00A0 (no-break space) for white space, the two codes named in the
    header comment of the source. *)
Definition iswspace_latin1 (c : Z) : bool := wspace c || (c =? 133) || (c =? 160).

(** ** The comment-exclusion pre-pass: [exclude_comments] (lines 155 to 213)

    Both passes declare a local [c2] without an initial value and read it
    in the test [c1 == '/' && c2 == '/'] before the first assignment when
    the byte just read is a slash.  The language leaves the value of such
    an object indeterminate each time its declaration is reached; the
    model takes what its storage then holds as an argument.
    - In the first pass the declaration (line 159) is reached once: the
      argument is one value.
    - In the second pass the declaration (line 183) is inside the loop and
      is reached once for every token: the argument is a function that
      gives the content of the storage for the first token read, for the
      second, and so on.  Compiled code usually finds there what the
      former token left. *)

(** First pass, lines 160 to 170.  [chars_pass] is the outer loop about to
    call [fgetc] with [c2] as given; [chars_comment] is the loop of line
    164.  When that loop is left on a newline, [c1] and then [c2] become
    the newline; when it is left on [EOF] the outer loop reads [EOF] again
    and stops. *)
Fixpoint chars_pass (f : FILE) (c2 : Z) (excluded : Z) : Z :=
  match f with
  | [] => excluded
  | b :: f' =>
      let c1 := code b in
      if (c1 =? slash) && (c2 =? slash)
      then chars_comment f' (int_add excluded 2)
      else chars_pass f' c1 excluded
  end
with chars_comment (f : FILE) (excluded : Z) : Z :=
  match f with
  | [] => excluded
  | b :: f' =>
      let c := code b in
      if negb (c =? newline) && negb (c =? EOF)
      then chars_comment f' (incr excluded)
      else chars_pass f' c excluded
  end.

(** Lines 196 and 197, once the loop of line 192 is left. *)
Definition end_comment (c4 : Z) (no_space_before_comment : bool) (excluded : Z) : Z :=
  let excluded := if negb (wspace c4) then incr excluded else excluded in
  if no_space_before_comment then decr excluded else excluded.

Section SecondPass.

(** [c2_at k]: what the storage of [c2] holds when line 183 is reached for
    the [k]-th time, counting from 0. *)
Variable c2_at : nat -> Z.

(** Second pass, lines 180 to 206.
    - [words_pass] is the outer loop (line 180) about to call [fgetc],
      line 183 having been reached [k] times.  On a byte that is not a
      delimiter it runs lines 182 to 187 and the first round of the loop of
      line 188, whose test holds for that byte.
    - [words_token] is line 202, about to call [fgetc], [c2] holding the
      former [c1]; it then runs the test of line 188 and the next round.
    - [words_comment] is the loop of line 192 about to call [fgetc]; when
      it is left, [c1] is the newline or [EOF], so the loop of line 188
      is left too, and [c2] is not read again. *)
Fixpoint words_pass (f : FILE) (k : nat) (excluded : Z) : Z :=
  match f with
  | [] => excluded
  | b :: f' =>
      let c := code b in
      if negb (wspace c) then
        let c2 := c2_at k in
        let no_space_before_comment := negb (c =? slash) in
        if (c =? slash) && (c2 =? slash)
        then words_comment f' c (S k) no_space_before_comment excluded
        else words_token f' c (S k) no_space_before_comment excluded
      else words_pass f' k excluded
  end
with words_token (f : FILE) (c2 : Z) (k : nat) (no_space_before_comment : bool)
                 (excluded : Z) : Z :=
  match f with
  | [] => excluded
  | b :: f' =>
      let c1 := code b in
      if negb (wspace c1) && negb (c1 =? EOF) then
        if (c1 =? slash) && (c2 =? slash)
        then words_comment f' c1 k no_space_before_comment excluded
        else words_token f' c1 k no_space_before_comment excluded
      else words_pass f' k excluded
  end
with words_comment (f : FILE) (c4 : Z) (k : nat) (no_space_before_comment : bool)
                   (excluded : Z) : Z :=
  match f with
  | [] => end_comment c4 no_space_before_comment excluded
  | b :: f' =>
      let c3 := code b in
      if negb (c3 =? newline) && negb (c3 =? EOF) then
        words_comment f' c3 k no_space_before_comment
          (if negb (wspace c4) && wspace c3 then incr excluded else excluded)
      else words_pass f' k (end_comment c4 no_space_before_comment excluded)
  end.

End SecondPass.

(** What the storage of [c2] holds in a call of [exclude_comments]: at
    the start of the first pass, and each time the second pass reaches
    line 183. *)
Definition c2_values : Type := Z * (nat -> Z).

(** ** The process: globals, standard output, files *)

(** What the program writes, one item per call of [printf]. *)
Inductive event : Type :=
| Count (n : Z)                 (* printf("      %d", n) *)
| Name (filename : string)      (* printf(" %s\n", arg) *)
| Total (l w c : Z)             (* printf("      %d      %d      %d total\n", ...) *)
| Newline.                      (* printf("\n") *)

(** The globals of lines 105 to 114, what was written to standard output
    so far, the files of the working directory, and the number of calls
    of [fopen] for reading made so far. *)
Record state : Type := mkState {
  W : bool;
  L : bool;
  C : bool;
  CHARS_EXCLUDED : Z;
  WORDS_EXCLUDED : Z;
  TOTAL_WORDS : Z;
  TOTAL_LINES : Z;
  TOTAL_CHARS : Z;
  stdout : list event;
  disk : string -> option (list byte);
  opens : nat
}.

Definition with_flags (w l c : bool) (s : state) : state :=
  mkState w l c (CHARS_EXCLUDED s) (WORDS_EXCLUDED s)
          (TOTAL_WORDS s) (TOTAL_LINES s) (TOTAL_CHARS s)
          (stdout s) (disk s) (opens s).

Definition with_CHARS_EXCLUDED (n : Z) (s : state) : state :=
  mkState (W s) (L s) (C s) n (WORDS_EXCLUDED s)
          (TOTAL_WORDS s) (TOTAL_LINES s) (TOTAL_CHARS s)
          (stdout s) (disk s) (opens s).

Definition with_WORDS_EXCLUDED (n : Z) (s : state) : state :=
  mkState (W s) (L s) (C s) (CHARS_EXCLUDED s) n
          (TOTAL_WORDS s) (TOTAL_LINES s) (TOTAL_CHARS s)
          (stdout s) (disk s) (opens s).

Definition with_totals (w l c : Z) (s : state) : state :=
  mkState (W s) (L s) (C s) (CHARS_EXCLUDED s) (WORDS_EXCLUDED s)
          w l c (stdout s) (disk s) (opens s).

Definition with_stdout (o : list event) (s : state) : state :=
  mkState (W s) (L s) (C s) (CHARS_EXCLUDED s) (WORDS_EXCLUDED s)
          (TOTAL_WORDS s) (TOTAL_LINES s) (TOTAL_CHARS s)
          o (disk s) (opens s).

Definition with_disk (d : string -> option (list byte)) (s : state) : state :=
  mkState (W s) (L s) (C s) (CHARS_EXCLUDED s) (WORDS_EXCLUDED s)
          (TOTAL_WORDS s) (TOTAL_LINES s) (TOTAL_CHARS s)
          (stdout s) d (opens s).

Definition with_opens (n : nat) (s : state) : state :=
  mkState (W s) (L s) (C s) (CHARS_EXCLUDED s) (WORDS_EXCLUDED s)
          (TOTAL_WORDS s) (TOTAL_LINES s) (TOTAL_CHARS s)
          (stdout s) (disk s) n.

(** The state at program start: the initialisers of lines 105 to 114. *)
Definition initial (files : string -> option (list byte)) : state :=
  mkState false false false 0 0 0 0 0 [] files 0.

(** A call either returns, or ends the process through [exit], or makes
    the process crash: it passes a null stream to the C library, which is
    undefined behaviour and on the usual systems a fatal signal. *)
Inductive result (A : Type) : Type :=
| Returns (a : A) (s : state)
| Exits (status : Z) (s : state)
| Crashes (s : state).
Arguments Returns {A} a s.
Arguments Exits {A} status s.
Arguments Crashes {A} s.

Definition proc (A : Type) : Type := state -> result A.

Definition ret {A : Type} (a : A) : proc A := fun s => Returns a s.

Definition bind {A B : Type} (m : proc A) (k : A -> proc B) : proc B :=
  fun s =>
    match m s with
    | Returns a s' => k a s'
    | Exits status s' => Exits status s'
    | Crashes s' => Crashes s'
    end.

Definition exit {A : Type} (status : Z) : proc A := fun s => Exits status s.

Definition crash {A : Type} : proc A := fun s => Crashes s.

Definition get : proc state := fun s => Returns s s.

Definition modify (f : state -> state) : proc unit := fun s => Returns tt (f s).

Declare Scope proc_scope.
Delimit Scope proc_scope with proc.
Notation "x <- m ;; k" := (bind m (fun x => k))
  (at level 61, m at next level, right associativity) : proc_scope.
Notation "m ;; k" := (bind m (fun _ => k))
  (at level 61, right associativity) : proc_scope.
Local Open Scope proc_scope.

Definition printf (e : event) : proc unit :=
  modify (fun s => with_stdout (stdout s ++ [e]) s).

Definition when (b : bool) (m : proc unit) : proc unit :=
  if b then m else ret tt.

Definition EXIT_FAILURE : Z := 1.

(** How a process ends: with an exit status, or by a crash. *)
Inductive ending : Type :=
| Exit (status : Z)
| Crash.

(** What the environment decides about [temp.txt], the one file that the
    program writes and removes: whether it can be opened for writing (it
    cannot when it is there without write permission, when it is a
    directory, or when the working directory takes no new file); which
    names of the directory denote the same file as [temp.txt], through a
    hard or a symbolic link, so that what is written through [temp.txt] is
    what they hold; and whether it can be removed. *)
Record temp_env : Type := mkTemp {
  writable : bool;
  links : string -> bool;
  removable : bool
}.

Section Process.

Variable iswspace : Z -> bool.

(** [unreadable n] tells that the call of [fopen] for reading that comes
    after [n] earlier ones returns [NULL], whatever the directory holds
    (a file can vanish or lose its permissions between two calls). *)
Variable unreadable : nat -> bool.

(** [scratch k] is what the storage of [c2] holds in the call of
    [exclude_comments] for the [k]-th file argument ([k = 0] for standard
    input). *)
Variable scratch : nat -> c2_values.

(** The bytes that standard input delivers. *)
Variable stdin : list byte.

Variable temp : temp_env.

Definition fopen (filename : string) : proc (option FILE) :=
  fun s =>
    Returns (if unreadable (opens s) then None else disk s filename)
            (with_opens (S (opens s)) s).

(** [wc], lines 120 to 153. *)
Definition wc (filename : string) : proc unit :=
  file <- fopen filename ;;
  match file with
  | Some f =>
      let n := wc_count iswspace f in
      s <- get ;;
      when (L s) (printf (Count (lines n))) ;;
      when (W s) (printf (Count (int_sub (words n) (WORDS_EXCLUDED s)))) ;;
      when (C s) (printf (Count (int_sub (chars n) (CHARS_EXCLUDED s)))) ;;
      modify (fun s =>
        with_totals
          (int_add (TOTAL_WORDS s) (int_sub (words n) (WORDS_EXCLUDED s)))
          (int_add (TOTAL_LINES s) (lines n))
          (int_add (TOTAL_CHARS s) (int_sub (chars n) (CHARS_EXCLUDED s)))
          s) ;;
      modify (fun s => with_WORDS_EXCLUDED 0 (with_CHARS_EXCLUDED 0 s))
  | None => exit EXIT_FAILURE
  end.

(** [exclude_comments], lines 155 to 213; [c2s] is the content of the
    storage of [c2] in the two passes. *)
Definition exclude_comments (c2s : c2_values) (filename : string) : proc unit :=
  file <- fopen filename ;;
  match file with
  | Some f =>
      modify (fun s =>
        with_CHARS_EXCLUDED (chars_pass f (fst c2s) (CHARS_EXCLUDED s)) s)
  | None => exit EXIT_FAILURE
  end ;;
  file <- fopen filename ;;
  match file with
  | Some f =>
      modify (fun s =>
        with_WORDS_EXCLUDED (words_pass (snd c2s) f 0 (WORDS_EXCLUDED s)) s)
  | None => exit EXIT_FAILURE
  end.

(** [arg[0]]: the first character, or the terminating NUL. *)
Definition first_char (arg : string) : ascii :=
  match arg with
  | EmptyString => Ascii.zero
  | String a _ => a
  end.

(** The characters [arg[1]] to [arg[strlen(arg) - 1]]. *)
Definition flag_chars (arg : string) : string :=
  match arg with
  | EmptyString => EmptyString
  | String _ rest => rest
  end.

Definition is_flag (arg : string) : bool := Ascii.eqb (first_char arg) "-".

(** The loop of lines 224 to 229 over the characters of a flag argument;
    the value is [ellide_comments]. *)
Fixpoint set_flags (cs : string) (ellide_comments : bool) : proc bool :=
  match cs with
  | EmptyString => ret ellide_comments
  | String a cs' =>
      if Ascii.eqb a "C" then set_flags cs' true
      else if Ascii.eqb a "w" then
        modify (fun s => with_flags true (L s) (C s) s) ;;
        set_flags cs' ellide_comments
      else if Ascii.eqb a "l" then
        modify (fun s => with_flags (W s) true (C s) s) ;;
        set_flags cs' ellide_comments
      else if Ascii.eqb a "c" then
        modify (fun s => with_flags (W s) (L s) true s) ;;
        set_flags cs' ellide_comments
      else set_flags cs' ellide_comments
  end.

(** The loop of lines 220 to 236 over [argv[1]] to [argv[argc - 1]];
    the value is the pair of [ellide_comments] and [numfiles].
    [numfiles] stays below [argc], so it is a natural number here. *)
Fixpoint main_loop (args : list string) (ellide_comments : bool)
                   (numfiles : nat) : proc (bool * nat) :=
  match args with
  | [] => ret (ellide_comments, numfiles)
  | arg :: rest =>
      if is_flag arg then
        e <- set_flags (flag_chars arg) ellide_comments ;;
        main_loop rest e numfiles
      else
        let numfiles := S numfiles in
        when ellide_comments (exclude_comments (scratch numfiles) arg) ;;
        wc arg ;;
        printf (Name arg) ;;
        main_loop rest ellide_comments numfiles
  end.

(** The bytes of standard input that reach [text] (lines 244 to 249).
    Each call of [fgets] takes at most nine bytes and stops after a
    newline; [strlen] and [strcat] see the buffer up to its first NUL
    byte, so the bytes of a buffer that follow a NUL byte are lost.
    [room] is the number of bytes the current buffer can still take and
    [cut] tells that it already holds a NUL byte. *)
Fixpoint staged (input : list byte) (room : nat) (cut : bool) : list byte :=
  match input with
  | [] => []
  | b :: r =>
      let cut' := cut || (code b =? 0) in
      let kept := if cut' then [] else [b] in
      if (code b =? newline) || Nat.eqb room 1
      then kept ++ staged r 9 false
      else kept ++ staged r (pred room) cut'
  end.

Definition temp_txt : string := "temp.txt".

(** Lines 242 and 250 to 251: [temp.txt] is opened for writing, which
    creates it or empties it, and receives [text]; so does every name
    that denotes the same file.  The source does not test the stream
    that this [fopen] returns: when [temp.txt] cannot be opened for
    writing, the directory is left as it is and [fprintf] is called with
    a null stream.  On a stream that is open, [fprintf] and [fclose] are
    taken to write the whole text. *)
Definition write_temp (content : list byte) : proc unit :=
  if writable temp then
    modify (fun s =>
      with_disk (fun name =>
                   if String.eqb name temp_txt || links temp name
                   then Some content else disk s name) s)
  else crash.

(** Line 257: the name [filename] is taken out of the directory; the
    other names of the file keep it.  The source does not look at what
    [remove] returns: when the name cannot be removed, the run goes on
    with the directory as it is. *)
Definition remove (filename : string) : proc unit :=
  if removable temp then
    modify (fun s =>
      with_disk (fun name => if String.eqb name filename then None
                             else disk s name) s)
  else ret tt.

(** [main], lines 215 to 260; [args] is [argv[1]] to [argv[argc - 1]]. *)
Definition main (args : list string) : proc unit :=
  when (match args with
        | [] => true
        | argv1 :: _ => negb (is_flag argv1) || String.eqb argv1 "-C"
        end)
       (modify (with_flags true true true)) ;;
  r <- main_loop args false 0 ;;
  let ellide_comments := fst r in
  let numfiles := snd r in
  s <- get ;;
  when (1 <? numfiles)%nat
       (printf (Total (TOTAL_LINES s) (TOTAL_WORDS s) (TOTAL_CHARS s))) ;;
  when (numfiles =? 0)%nat
       (write_temp (staged stdin 9 false) ;;
        when ellide_comments (exclude_comments (scratch 0%nat) temp_txt) ;;
        wc temp_txt ;;
        printf Newline ;;
        remove temp_txt) ;;
  exit 0.

(** A run of the program: how it ends, and what it wrote to standard
    output. *)
Definition run (files : string -> option (list byte)) (args : list string)
  : ending * list event :=
  match main args (initial files) with
  | Returns _ s => (Exit 0, stdout s)
  | Exits status s => (Exit status, stdout s)
  | Crashes s => (Crash, stdout s)
  end.

End Process.

(** ** Reference definitions for the statements *)

(** Number of bytes of a stream that [//] comments hold: the bytes other
    than newlines that lie, on their line, at or after the first slash of
    two slashes in a row.  [in_comment] tells that such a pair started
    earlier on the line. *)
Fixpoint comment_bytes (in_comment : bool) (s : list byte) : Z :=
  match s with
  | [] => 0
  | a :: t =>
      if code a =? newline then comment_bytes false t
      else
        let starts :=
          match t with
          | b :: _ => (code a =? slash) && (code b =? slash)
          | [] => false
          end in
        let inside := in_comment || starts in
        (if inside then 1 else 0) + comment_bytes inside t
  end.

(** What a call of [exclude_comments] adds to [CHARS_EXCLUDED] and to
    [WORDS_EXCLUDED] when both are zero. *)
Definition exclusion (c2s : c2_values) (f : FILE) : Z * Z :=
  (chars_pass f (fst c2s) 0, words_pass (snd c2s) f 0 0).

(** The counts reported for a file: the raw counts less what was
    excluded. *)
Definition adjusted (n : counts) (chars_excluded words_excluded : Z) : counts :=
  mkCounts (lines n) (int_sub (words n) words_excluded)
           (int_sub (chars n) chars_excluded).

(** The numbers written for a file, in the order of lines 140 to 142. *)
Definition display (l w c : bool) (n : counts) : list event :=
  (if l then [Count (lines n)] else [])
  ++ (if w then [Count (words n)] else [])
  ++ (if c then [Count (chars n)] else []).

(** [occurs a cs]: the character [a] is one of [cs]. *)
Fixpoint occurs (a : ascii) (cs : string) : bool :=
  match cs with
  | EmptyString => false
  | String x cs' => Ascii.eqb x a || occurs a cs'
  end.

(** [requested a args]: some flag argument of [args] holds the letter [a]
    after its first character. *)
Definition requested (a : ascii) (args : list string) : bool :=
  existsb (fun arg => is_flag arg && occurs a (flag_chars arg)) args.

(** The rule of line 217: all three counts are switched on from the start. *)
Definition default_rule (args : list string) : bool :=
  match args with
  | [] => true
  | argv1 :: _ => negb (is_flag argv1) || String.eqb argv1 "-C"
  end.

Definition file_args (args : list string) : list string :=
  filter (fun arg => negb (is_flag arg)) args.

Definition content (files : string -> option (list byte)) (name : string) : list byte :=
  match files name with
  | Some f => f
  | None => []
  end.

Definition readable (files : string -> option (list byte)) (name : string) : bool :=
  match files name with
  | Some _ => true
  | None => false
  end.

Section Reports.

Variable iswspace : Z -> bool.
Variable scratch : nat -> c2_values.
Variable files : string -> option (list byte).

(** The counts reported for the file argument [name] that comes after
    the arguments [before]: comments are excluded when a flag argument
    of [before] holds [C]. *)
Definition report (before : list string) (name : string) : counts :=
  let f := content files name in
  let k := S (List.length (file_args before)) in
  let x := if requested "C" before then exclusion (scratch k) f else (0, 0) in
  adjusted (wc_count iswspace f) (fst x) (snd x).

(** The file arguments of [args], each with the arguments that precede
    it on the command line; [before] holds those that precede [args]. *)
Fixpoint file_lines (before args : list string) : list (list string * string) :=
  match args with
  | [] => []
  | arg :: rest =>
      if is_flag arg then file_lines (before ++ [arg]) rest
      else (before, arg) :: file_lines (before ++ [arg]) rest
  end.

(** The line written for a file argument: the counts switched on by
    line 217 ([all]) or by the flags that precede it, and its name. *)
Definition line_events (all : bool) (entry : list string * string) : list event :=
  let before := fst entry in
  display (all || requested "l" before) (all || requested "w" before)
          (all || requested "c" before) (report before (snd entry))
  ++ [Name (snd entry)].

Definition reports (args : list string) : list counts :=
  map (fun entry => report (fst entry) (snd entry)) (file_lines [] args).

End Reports.

Definition sum (l : list Z) : Z := fold_right Z.add 0 l.

Definition is_total (e : event) : bool :=
  match e with
  | Total _ _ _ => true
  | _ => false
  end.

Section LoopInvariant.

Variable iswspace : Z -> bool.
Variable scratch : nat -> c2_values.
Variable files : string -> option (list byte).

(** The state between two rounds of the loop of [main], once the
    arguments [before] are done and every file among them was read. *)
Record after_args (all : bool) (before : list string) (s : state) : Prop := {
  after_disk : disk s = files;
  after_chars_excluded : CHARS_EXCLUDED s = 0;
  after_words_excluded : WORDS_EXCLUDED s = 0;
  after_W : W s = all || requested "w" before;
  after_L : L s = all || requested "l" before;
  after_C : C s = all || requested "c" before;
  after_total_words :
    TOTAL_WORDS s = to_int (sum (map words (reports iswspace scratch files before)));
  after_total_lines :
    TOTAL_LINES s = to_int (sum (map lines (reports iswspace scratch files before)));
  after_total_chars :
    TOTAL_CHARS s = to_int (sum (map chars (reports iswspace scratch files before)));
  after_stdout :
    stdout s =
    List.concat (map (line_events iswspace scratch files all) (file_lines [] before))
}.

End LoopInvariant.

Definition all_readable (files : string -> option (list byte))
           (args : list string) : bool :=
  forallb (fun arg => is_flag arg || readable files arg) args.

(** The arguments that come before the first file argument that is not in
    the directory; all the arguments when every file is there. *)
Fixpoint handled (files : string -> option (list byte)) (args : list string)
  : list string :=
  match args with
  | [] => []
  | arg :: rest =>
      if is_flag arg || readable files arg then arg :: handled files rest else []
  end.

Section ExpectedOutput.

Variable iswspace : Z -> bool.
Variable scratch : nat -> c2_values.
Variable stdin : list byte.
Variable files : string -> option (list byte).

(** The line of totals: written when two file arguments or more were
    given, with the sums of the reported counts held in an [int]. *)
Definition total_line (args : list string) : list event :=
  let rs := reports iswspace scratch files args in
  if (1 <? List.length (file_args args))%nat
  then [Total (to_int (sum (map lines rs))) (to_int (sum (map words rs)))
              (to_int (sum (map chars rs)))]
  else [].

(** The counts reported for standard input. *)
Definition stdin_report (args : list string) : counts :=
  let f := staged stdin 9 false in
  let x := if requested "C" args then exclusion (scratch 0%nat) f else (0, 0) in
  adjusted (wc_count iswspace f) (fst x) (snd x).

(** The line written for standard input, read when no file argument was
    given. *)
Definition stdin_line (args : list string) : list event :=
  let all := default_rule args in
  if (List.length (file_args args) =? 0)%nat
  then display (all || requested "l" args) (all || requested "w" args)
               (all || requested "c" args) (stdin_report args) ++ [Newline]
  else [].

Definition file_output (args shown : list string) : list event :=
  List.concat (map (line_events iswspace scratch files (default_rule args))
                   (file_lines [] shown)).

(** What a run writes when every file can be read and, for standard
    input, [temp.txt] can be opened for writing. *)
Definition expected_output (args : list string) : list event :=
  file_output args args ++ total_line args ++ stdin_line args.

End ExpectedOutput.

(** [no_total out]: the line of totals is not part of [out]. *)
Definition no_total (out : list event) : bool :=
  forallb (fun e => negb (is_total e)) out.




(** [unmarked prev t]: the bytes [t] go on a token whose last byte read
    is [prev] without a delimiter and without two slashes in a row, and the
    last byte of [prev :: t] is not a slash. *)
Fixpoint unmarked (prev : Z) (t : list byte) : bool :=
  match t with
  | [] => negb (prev =? slash)
  | b :: t' =>
      negb (wspace (code b))
      && negb ((code b =? slash) && (prev =? slash))
      && unmarked (code b) t'
  end.

(** ** Sample files *)

Definition line_feed : list byte := [Byte.x0a].

(** ["foo // bar baz\n"], ["foo//bar baz\n"], ["/a//b\n"], ["hello world\n"]. *)
Definition foo_comment : list byte := (bytes "foo // bar baz" ++ line_feed)%list.
Definition foo_glued : list byte := (bytes "foo//bar baz" ++ line_feed)%list.
Definition slash_a_glued : list byte := (bytes "/a//b" ++ line_feed)%list.
Definition hello_world : list byte := (bytes "hello world" ++ line_feed)%list.

(** A directory with two files and nothing else. *)
Definition two_files (name : string) : option (list byte) :=
  if String.eqb name "f1" then Some foo_comment
  else if String.eqb name "f2" then Some hello_world
  else None.

Definition never : nat -> bool := fun _ => false.

(** [temp.txt] can be written and removed and has no other name; and
    [temp.txt] cannot be opened for writing. *)
Definition ordinary : temp_env := mkTemp true (fun _ => false) true.
Definition read_only : temp_env := mkTemp false (fun _ => false) true.
(** The storage of [c2] holds 0, or a slash, whenever it is read. *)
Definition c2_zero : c2_values := (0, fun _ => 0).
Definition c2_slash : c2_values := (slash, fun _ => slash).
Definition zeros : nat -> c2_values := fun _ => c2_zero.

(** ["/a"] and ["/x"], and a directory that holds ["/x"] as [f]. *)
Definition slash_a : list byte := bytes "/a".
Definition slash_x : list byte := bytes "/x".

Definition one_file (name : string) : option (list byte) :=
  if String.eqb name "f" then Some slash_x else None.

(** The byte [a] followed by the byte 0x85 (NEL). *)
Definition a_nel : list byte := [Byte.x61; Byte.x85].

(** ["// c\n/ x\n"]: a comment, then a line that begins with a lone
    slash. *)
Definition comment_then_slash : list byte :=
  (bytes "// c" ++ line_feed ++ bytes "/ x" ++ line_feed)%list.

(** The storage of [c2] holds 0 for the first token, and for the second
    token the slash that the first token left there. *)
Definition c2_left_over : c2_values :=
  (0, fun k => match k with 1%nat => slash | _ => 0 end).


(** ** Reference definitions for further properties *)

(** Number of bytes that the counting scan reads and does not count: the
    bytes that end a word (the byte before them is not white space for
    [iswspace]) and that [iswspace] accepts while [wspace] does not.
    [in_word] tells that the byte before the head of the list is part of
    a word. *)
Fixpoint uncounted (iswspace : Z -> bool) (in_word : bool) (s : list byte) : Z :=
  match s with
  | [] => 0
  | b :: r =>
      (if in_word && iswspace (code b) && negb (wspace (code b)) then 1 else 0)
      + uncounted iswspace (negb (iswspace (code b))) r
  end.

(** Sum of two triples of counts, each held in an [int]. *)
Definition plus_counts (a b : counts) : counts :=
  mkCounts (int_add (lines a) (lines b)) (int_add (words a) (words b))
           (int_add (chars a) (chars b)).

(** The three counts are values of an [int]. *)
Definition in_int (n : counts) : Prop :=
  lines n = to_int (lines n) /\ words n = to_int (words n) /\
  chars n = to_int (chars n).

(** The bytes of a stream that are outside [//] comments: what is left
    when every line is cut at its first two slashes in a row, the newline
    kept (the effect of the command [sed 's://.*$::g'] that the header of
    the source gives for [-C]). *)
Fixpoint uncommented (in_comment : bool) (s : list byte) : list byte :=
  match s with
  | [] => []
  | a :: t =>
      if code a =? newline then a :: uncommented false t
      else
        let starts :=
          match t with
          | b :: _ => (code a =? slash) && (code b =? slash)
          | [] => false
          end in
        let inside := in_comment || starts in
        if inside then uncommented inside t else a :: uncommented inside t
  end.


(** ["a b\n"] followed by ["c"], and a file with a NUL byte:
    ["ab"], NUL, ["cd\n"]. *)
Definition a_b_line : list byte := (bytes "a b" ++ line_feed)%list.
Definition with_nul : list byte :=
  (bytes "ab" ++ [Byte.x00] ++ bytes "cd" ++ line_feed)%list.

(** A directory in which [f1] holds no slash. *)
Definition plain_files (name : string) : option (list byte) :=
  if String.eqb name "f1" then Some hello_world else None.


(** [marker c s]: [c] is a slash and so is the first byte of [s]. *)
Definition marker (c : Z) (s : list byte) : bool :=
  match s with
  | b :: _ => (c =? slash) && (code b =? slash)
  | [] => false
  end.

(** [slash_led true s]: some token of [s] begins with a slash.
    [after_space] tells that the byte before the head of the list is a
    delimiter, or that the list is at its start. *)
Fixpoint slash_led (after_space : bool) (s : list byte) : bool :=
  match s with
  | [] => false
  | b :: r => (after_space && (code b =? slash)) || slash_led (wspace (code b)) r
  end.







(** * Properties *)

(** ** Machine integers *)

Lemma to_int_small (z : Z) : INT_MIN <= z <= INT_MAX -> to_int z = z.
Proof.
  unfold to_int, INT_MIN, INT_MAX. intros H.
  rewrite Z.mod_small by lia. lia.
Qed.

Lemma to_int_congr (a b k : Z) : a = b + k * 4294967296 -> to_int a = to_int b.
Proof.
  intros ->. unfold to_int.
  replace (b + k * 4294967296 + 2147483648)
    with (b + 2147483648 + k * 4294967296) by lia.
  rewrite Z_mod_plus_full. reflexivity.
Qed.

Lemma to_int_shift (a : Z) : exists k, to_int a = a + k * 4294967296.
Proof.
  exists (- ((a + 2147483648) / 4294967296)). unfold to_int.
  pose proof (Z.div_mod (a + 2147483648) 4294967296). lia.
Qed.

Lemma to_int_add_l (a b : Z) : to_int (to_int a + b) = to_int (a + b).
Proof.
  destruct (to_int_shift a) as [k ->]. apply to_int_congr with (k := k). lia.
Qed.

Lemma to_int_add_r (a b : Z) : to_int (a + to_int b) = to_int (a + b).
Proof.
  destruct (to_int_shift b) as [k ->]. apply to_int_congr with (k := k). lia.
Qed.

Lemma to_int_sub_l (a b : Z) : to_int (to_int a - b) = to_int (a - b).
Proof.
  destruct (to_int_shift a) as [k ->]. apply to_int_congr with (k := k). lia.
Qed.

Lemma to_int_sub_r (a b : Z) : to_int (a - to_int b) = to_int (a - b).
Proof.
  destruct (to_int_shift b) as [k ->]. apply to_int_congr with (k := - k). lia.
Qed.

Lemma to_int_range (a : Z) : INT_MIN <= to_int a <= INT_MAX.
Proof.
  unfold to_int, INT_MIN, INT_MAX.
  pose proof (Z.mod_pos_bound (a + 2147483648) 4294967296). lia.
Qed.

Lemma to_int_idem (a : Z) : to_int (to_int a) = to_int a.
Proof. apply to_int_small, to_int_range. Qed.

Lemma incr_to_int (k : Z) : incr (to_int k) = to_int (k + 1).
Proof. unfold incr, int_add. apply to_int_add_l. Qed.

Lemma decr_to_int (k : Z) : decr (to_int k) = to_int (k - 1).
Proof. unfold decr, int_sub. apply to_int_sub_l. Qed.

(** ** Bytes *)

Lemma code_range (b : byte) : 0 <= code b <= 255.
Proof.
  unfold code. pose proof (Byte.to_N_bounded b). lia.
Qed.

Lemma code_not_EOF (b : byte) : (code b =? EOF) = false.
Proof. pose proof (code_range b). unfold EOF. lia. Qed.

Lemma wspace_newline : wspace newline = true.
Proof. reflexivity. Qed.

Section CountingScanFacts.

Variable iswspace : Z -> bool.

(** The line counter is the number of newline bytes read, as an [int];
    [k] is the number counted before the scan resumes. *)
Lemma wc_lines_gen :
  iswspace newline = true ->
  forall f,
    (forall n k, lines n = to_int k ->
       lines (wc_scan iswspace f n) = to_int (k + count_newlines f)) /\
    (forall n k, lines n = to_int k ->
       lines (wc_word iswspace f n) = to_int (k + count_newlines f)).
Proof.
  intros Hnl. induction f as [|b f [IHscan IHword]]; split; intros n k Hk; simpl.
  - rewrite Z.add_0_r. exact Hk.
  - rewrite Z.add_0_r. exact Hk.
  - destruct (iswspace (code b)) eqn:Hb; simpl.
    + destruct (code b =? newline) eqn:Hc.
      * rewrite (IHscan _ (k + 1)) by (simpl; rewrite Hk; apply incr_to_int).
        f_equal. lia.
      * rewrite (IHscan _ k) by exact Hk. f_equal.
    + assert ((code b =? newline) = false) as ->.
      { destruct (code b =? newline) eqn:Hc; [|reflexivity].
        apply Z.eqb_eq in Hc. congruence. }
      rewrite (IHword _ k) by exact Hk. f_equal.
  - rewrite code_not_EOF. destruct (iswspace (code b)) eqn:Hb; simpl.
    + destruct (code b =? newline) eqn:Hc.
      * rewrite (IHscan _ (k + 1)).
        -- f_equal. lia.
        -- destruct (wspace (code b)); simpl; rewrite Hk; apply incr_to_int.
      * rewrite (IHscan _ k); [f_equal|].
        destruct (wspace (code b)); exact Hk.
    + assert ((code b =? newline) = false) as ->.
      { destruct (code b =? newline) eqn:Hc; [|reflexivity].
        apply Z.eqb_eq in Hc. congruence. }
      rewrite (IHword _ k) by exact Hk. f_equal.
Qed.

(** The word counter is the number of runs started, as an [int]; inside
    a word the run under way is counted when it ends. *)
Lemma wc_words_gen :
  forall f,
    (forall n k, words n = to_int k ->
       words (wc_scan iswspace f n) = to_int (k + run_starts iswspace true f)) /\
    (forall n k, words n = to_int k ->
       words (wc_word iswspace f n) = to_int (k + 1 + run_starts iswspace false f)).
Proof.
  induction f as [|b f [IHscan IHword]]; split; intros n k Hk;
    cbn [wc_scan wc_word run_starts]; cbv zeta.
  - rewrite Z.add_0_r. exact Hk.
  - cbn [incr_words words]. rewrite Hk, Z.add_0_r. apply incr_to_int.
  - destruct (iswspace (code b)) eqn:Hb; cbn [negb andb].
    + rewrite (IHscan _ k); [apply f_equal; lia|].
      destruct (code b =? newline); exact Hk.
    + rewrite (IHword _ k) by exact Hk. apply f_equal. lia.
  - rewrite code_not_EOF. destruct (iswspace (code b)) eqn:Hb; cbn [negb andb].
    + rewrite (IHscan _ (k + 1)); [apply f_equal; lia|].
      destruct (code b =? newline), (wspace (code b));
      cbn [incr_lines incr_words incr_chars words];
      rewrite Hk; apply incr_to_int.
    + rewrite (IHword _ k) by exact Hk. apply f_equal. lia.
Qed.

(** The byte counter is the number of bytes read, as an [int], when
    every byte that [iswspace] accepts is one of the six of [wspace]. *)
Lemma wc_chars_gen :
  (forall b, iswspace (code b) = true -> wspace (code b) = true) ->
  forall f,
    (forall n k, chars n = to_int k ->
       chars (wc_scan iswspace f n) = to_int (k + Z.of_nat (List.length f))) /\
    (forall n k, chars n = to_int k ->
       chars (wc_word iswspace f n) = to_int (k + Z.of_nat (List.length f))).
Proof.
  intros Hagree.
  induction f as [|b f [IHscan IHword]]; split; intros n k Hk;
    cbn [wc_scan wc_word List.length].
  - rewrite Z.add_0_r. exact Hk.
  - rewrite Z.add_0_r. exact Hk.
  - cbv zeta. destruct (iswspace (code b)) eqn:Hb; cbn [negb].
    + rewrite (IHscan _ (k + 1)).
      * f_equal. lia.
      * destruct (code b =? newline); simpl; rewrite Hk; apply incr_to_int.
    + rewrite (IHword _ (k + 1)).
      * f_equal. lia.
      * simpl; rewrite Hk; apply incr_to_int.
  - cbv zeta. rewrite code_not_EOF.
    destruct (iswspace (code b)) eqn:Hb; cbn [negb andb].
    + rewrite (Hagree _ Hb). rewrite (IHscan _ (k + 1)).
      * f_equal. lia.
      * destruct (code b =? newline); simpl; rewrite Hk; apply incr_to_int.
    + rewrite (IHword _ (k + 1)).
      * f_equal. lia.
      * simpl; rewrite Hk; apply incr_to_int.
Qed.

End CountingScanFacts.

(** ** The process *)

Local Open Scope proc_scope.

Section ProcessFacts.

Variable iswspace : Z -> bool.
Variable unreadable : nat -> bool.

(** [wc] on a file that opens: the line of the file is written, the
    adjusted counts go into the totals, the excluded counts are reset. *)
Lemma wc_returns (filename : string) (s : state) (f : list byte) :
  unreadable (opens s) = false ->
  disk s filename = Some f ->
  let n := adjusted (wc_count iswspace f) (CHARS_EXCLUDED s) (WORDS_EXCLUDED s) in
  wc iswspace unreadable filename s =
  Returns tt
    (mkState (W s) (L s) (C s) 0 0
             (int_add (TOTAL_WORDS s) (words n))
             (int_add (TOTAL_LINES s) (lines n))
             (int_add (TOTAL_CHARS s) (chars n))
             (stdout s ++ display (L s) (W s) (C s) n)
             (disk s) (S (opens s))).
Proof.
  intros Hopen Hfile n.
  unfold wc, bind, fopen. rewrite Hopen, Hfile.
  destruct s as [w l c ce we tw tl tc out d o]; cbn in *.
  unfold display; destruct l, w, c; cbn;
    rewrite ?app_nil_r, <- ?app_assoc; reflexivity.
Qed.

(** [wc] on a file that does not open: the process ends at once. *)
Lemma wc_exits (filename : string) (s : state) :
  unreadable (opens s) = true \/ disk s filename = None ->
  wc iswspace unreadable filename s =
  Exits EXIT_FAILURE (with_opens (S (opens s)) s).
Proof.
  intros H. unfold wc, bind, fopen.
  destruct (unreadable (opens s)); [reflexivity|].
  destruct H as [H|H]; [discriminate|]. rewrite H. reflexivity.
Qed.

Lemma exclude_comments_returns (c2s : c2_values) (filename : string) (s : state)
      (f : list byte) :
  unreadable (opens s) = false ->
  unreadable (S (opens s)) = false ->
  disk s filename = Some f ->
  exclude_comments unreadable c2s filename s =
  Returns tt
    (mkState (W s) (L s) (C s)
             (chars_pass f (fst c2s) (CHARS_EXCLUDED s))
             (words_pass (snd c2s) f 0 (WORDS_EXCLUDED s))
             (TOTAL_WORDS s) (TOTAL_LINES s) (TOTAL_CHARS s)
             (stdout s) (disk s) (S (S (opens s)))).
Proof.
  intros H1 H2 Hfile.
  unfold exclude_comments, bind, fopen. rewrite H1, Hfile.
  cbn. rewrite H2, Hfile. reflexivity.
Qed.

(** The first pass cannot open the file. *)
Lemma exclude_comments_exits_first (c2s : c2_values) (filename : string) (s : state) :
  unreadable (opens s) = true \/ disk s filename = None ->
  exclude_comments unreadable c2s filename s =
  Exits EXIT_FAILURE (with_opens (S (opens s)) s).
Proof.
  intros H. unfold exclude_comments, bind, fopen.
  destruct (unreadable (opens s)); [reflexivity|].
  destruct H as [H|H]; [discriminate|]. rewrite H. reflexivity.
Qed.


Lemma set_flags_returns (cs : string) :
  forall (e : bool) (s : state),
    set_flags cs e s =
    Returns (e || occurs "C" cs)
      (with_flags (W s || occurs "w" cs) (L s || occurs "l" cs)
                  (C s || occurs "c" cs) s).
Proof.
  induction cs as [|a cs IH]; intros e s; cbn [set_flags occurs].
  - unfold ret. rewrite !orb_false_r. destruct s; reflexivity.
  - destruct (Ascii.eqb a "C") eqn:HC.
    { apply Ascii.eqb_eq in HC. subst a. rewrite IH. cbn.
      rewrite orb_true_r. reflexivity. }
    destruct (Ascii.eqb a "w") eqn:Hw.
    { apply Ascii.eqb_eq in Hw. subst a. unfold bind, modify. rewrite IH.
      destruct s; cbn. rewrite !orb_true_r. reflexivity. }
    destruct (Ascii.eqb a "l") eqn:Hl.
    { apply Ascii.eqb_eq in Hl. subst a. unfold bind, modify. rewrite IH.
      destruct s; cbn. rewrite !orb_true_r. reflexivity. }
    destruct (Ascii.eqb a "c") eqn:Hc.
    { apply Ascii.eqb_eq in Hc. subst a. unfold bind, modify. rewrite IH.
      destruct s; cbn. rewrite !orb_true_r. reflexivity. }
    rewrite IH. reflexivity.
Qed.

End ProcessFacts.

Lemma sum_app (a b : list Z) : sum (a ++ b) = sum a + sum b.
Proof.
  unfold sum. induction a as [|x a IH]; cbn [fold_right app]; [reflexivity|].
  fold (sum (a ++ b)) in *. fold (sum a) in *. lia.
Qed.

Lemma file_lines_app (a : list string) :
  forall before b,
    file_lines before (a ++ b) = file_lines before a ++ file_lines (before ++ a) b.
Proof.
  induction a as [|x a IH]; intros before b; cbn [file_lines app].
  - rewrite app_nil_r. reflexivity.
  - rewrite IH, <- app_assoc. cbn [app].
    destruct (is_flag x); reflexivity.
Qed.

Lemma file_lines_flag (before : list string) (arg : string) :
  is_flag arg = true -> file_lines [] (before ++ [arg]) = file_lines [] before.
Proof.
  intros H. rewrite file_lines_app. cbn [file_lines]. rewrite H.
  apply app_nil_r.
Qed.

Lemma file_lines_file (before : list string) (arg : string) :
  is_flag arg = false ->
  file_lines [] (before ++ [arg]) = file_lines [] before ++ [(before, arg)].
Proof.
  intros H. rewrite file_lines_app. cbn [file_lines app]. rewrite H. reflexivity.
Qed.

Lemma reports_flag iswspace scratch files (before : list string) (arg : string) :
  is_flag arg = true ->
  reports iswspace scratch files (before ++ [arg]) =
  reports iswspace scratch files before.
Proof. intros H. unfold reports. rewrite file_lines_flag by exact H. reflexivity. Qed.

Lemma reports_file iswspace scratch files (before : list string) (arg : string) :
  is_flag arg = false ->
  reports iswspace scratch files (before ++ [arg]) =
  reports iswspace scratch files before ++ [report iswspace scratch files before arg].
Proof.
  intros H. unfold reports. rewrite file_lines_file by exact H.
  rewrite map_app. reflexivity.
Qed.

Lemma requested_snoc (a : ascii) (before : list string) (arg : string) :
  requested a (before ++ [arg]) =
  requested a before || (is_flag arg && occurs a (flag_chars arg)).
Proof.
  unfold requested. rewrite existsb_app. cbn [existsb].
  rewrite orb_false_r. reflexivity.
Qed.

Lemma file_args_snoc (before : list string) (arg : string) :
  file_args (before ++ [arg]) =
  file_args before ++ (if is_flag arg then [] else [arg]).
Proof.
  unfold file_args. rewrite filter_app. cbn [filter].
  destruct (is_flag arg); reflexivity.
Qed.

Lemma all_flags_readable (files : string -> option (list byte)) (flags : list string) :
  Forall (fun a => is_flag a = true) flags -> all_readable files flags = true.
Proof.
  induction 1 as [|a flags Ha _ IH]; [reflexivity|].
  cbn [all_readable forallb]. rewrite Ha. exact IH.
Qed.

Lemma all_flags_no_file (flags : list string) :
  Forall (fun a => is_flag a = true) flags -> file_args flags = [].
Proof.
  induction 1 as [|a flags Ha _ IH]; [reflexivity|].
  cbn [file_args filter]. rewrite Ha. exact IH.
Qed.

Lemma all_flags_no_line (flags : list string) :
  Forall (fun a => is_flag a = true) flags ->
  forall before, file_lines before flags = [].
Proof.
  induction 1 as [|a flags Ha _ IH]; intros before; [reflexivity|].
  cbn [file_lines]. rewrite Ha. apply IH.
Qed.

Lemma no_file_all_flags (args : list string) :
  file_args args = [] -> Forall (fun a => is_flag a = true) args.
Proof.
  induction args as [|arg args IH]; cbn [file_args filter]; [constructor|].
  destruct (is_flag arg) eqn:Harg; cbn [negb]; [|discriminate].
  intros H. constructor; [exact Harg|apply IH; exact H].
Qed.

Section LoopFacts.

Variable iswspace : Z -> bool.
Variable unreadable : nat -> bool.
Variable scratch : nat -> c2_values.
Variable stdin : list byte.
Variable temp : temp_env.
Variable files : string -> option (list byte).

Hypothesis opens_succeed : forall n, unreadable n = false.


Lemma flag_round (all : bool) (before : list string) (arg : string) (s : state) :
  is_flag arg = true ->
  after_args iswspace scratch files all before s ->
  exists s',
    set_flags (flag_chars arg) (requested "C" before) s =
    Returns (requested "C" (before ++ [arg])) s' /\
    after_args iswspace scratch files all (before ++ [arg]) s'.
Proof.
  intros Hflag [Hd Hce Hwe HW HL HC Htw Htl Htc Hout].
  rewrite set_flags_returns. eexists. split.
  - rewrite requested_snoc, Hflag. reflexivity.
  - split; cbn;
      rewrite ?requested_snoc, ?Hflag, ?file_lines_flag, ?reports_flag
        by exact Hflag;
      cbn [andb]; rewrite ?orb_assoc; try congruence.
Qed.

Lemma file_round (all : bool) (before : list string) (arg : string) (s : state) :
  is_flag arg = false ->
  readable files arg = true ->
  after_args iswspace scratch files all before s ->
  exists s',
    (when (requested "C" before)
          (exclude_comments unreadable
             (scratch (S (List.length (file_args before)))) arg) ;;
     wc iswspace unreadable arg ;;
     printf (Name arg)) s = Returns tt s' /\
    after_args iswspace scratch files all (before ++ [arg]) s'.
Proof.
  intros Hflag Hread [Hd Hce Hwe HW HL HC Htw Htl Htc Hout].
  assert (disk s arg = Some (content files arg)) as Hfile.
  { rewrite Hd. unfold readable, content in *.
    destruct (files arg); [reflexivity|discriminate]. }
  unfold bind at 1.
  assert (exists s1,
    when (requested "C" before)
         (exclude_comments unreadable
            (scratch (S (List.length (file_args before)))) arg) s = Returns tt s1 /\
    disk s1 = disk s /\ W s1 = W s /\ L s1 = L s /\ C s1 = C s /\
    TOTAL_WORDS s1 = TOTAL_WORDS s /\ TOTAL_LINES s1 = TOTAL_LINES s /\
    TOTAL_CHARS s1 = TOTAL_CHARS s /\ stdout s1 = stdout s /\
    adjusted (wc_count iswspace (content files arg))
             (CHARS_EXCLUDED s1) (WORDS_EXCLUDED s1) =
    report iswspace scratch files before arg)
    as (s1 & -> & Hd1 & HW1 & HL1 & HC1 & Htw1 & Htl1 & Htc1 & Hout1 & Hrep).
  { unfold report, when. destruct (requested "C" before).
    - rewrite (exclude_comments_returns _ _ _ _ (content files arg)) by auto.
      eexists. split; [reflexivity|]. cbn. rewrite Hce, Hwe.
      repeat split; reflexivity.
    - unfold ret. exists s. rewrite Hce, Hwe. repeat split; reflexivity. }
  unfold bind.
  rewrite (wc_returns _ _ _ _ (content files arg)) by (rewrite ?Hd1; auto).
  unfold printf, modify. eexists. split; [reflexivity|].
  rewrite Hrep, HW1, HL1, HC1, Htw1, Htl1, Htc1, Hout1, Hd1.
  split; cbn;
    rewrite ?requested_snoc, ?Hflag, ?file_lines_file, ?reports_file
      by exact Hflag;
    cbn [andb]; rewrite ?orb_false_r; try assumption; try reflexivity.
  - rewrite map_app, sum_app. cbn. rewrite Htw. unfold int_add.
    rewrite to_int_add_l. apply f_equal. lia.
  - rewrite map_app, sum_app. cbn. rewrite Htl. unfold int_add.
    rewrite to_int_add_l. apply f_equal. lia.
  - rewrite map_app, sum_app. cbn. rewrite Htc. unfold int_add.
    rewrite to_int_add_l. apply f_equal. lia.
  - rewrite map_app, concat_app. cbn. rewrite app_nil_r.
    unfold line_events. cbn. rewrite Hout, HW, HL, HC, <- !app_assoc. reflexivity.
Qed.

End LoopFacts.

Section RunFacts.

Variable iswspace : Z -> bool.
Variable unreadable : nat -> bool.
Variable scratch : nat -> c2_values.
Variable stdin : list byte.
Variable temp : temp_env.
Variable files : string -> option (list byte).

Hypothesis opens_succeed : forall n, unreadable n = false.


(** The loop of [main] from any round on: it comes back when every file
    left can be read, and ends the process at the first that cannot,
    having written the lines of the files before that one. *)
Lemma main_loop_spec (all : bool) (args : list string) :
  forall (before : list string) (s : state),
    after_args iswspace scratch files all before s ->
    if all_readable files args then
      exists s',
        main_loop iswspace unreadable scratch args (requested "C" before)
                  (List.length (file_args before)) s =
        Returns (requested "C" (before ++ args),
                 List.length (file_args (before ++ args))) s' /\
        after_args iswspace scratch files all (before ++ args) s'
    else
      exists s',
        main_loop iswspace unreadable scratch args (requested "C" before)
                  (List.length (file_args before)) s =
        Exits EXIT_FAILURE s' /\
        stdout s' =
        List.concat (map (line_events iswspace scratch files all)
                         (file_lines [] (before ++ handled files args))).
Proof.
  induction args as [|arg rest IH]; intros before s Hinv.
  - cbn. exists s. rewrite app_nil_r. split; [reflexivity|exact Hinv].
  - cbn [all_readable forallb handled]. fold (all_readable files rest).
    cbn [main_loop].
    destruct (is_flag arg) eqn:Hflag; cbn [orb].
    + destruct (flag_round iswspace scratch files all before arg s Hflag Hinv)
        as (s1 & Hrun & Hinv1).
      specialize (IH (before ++ [arg]) s1 Hinv1).
      rewrite file_args_snoc, Hflag, app_nil_r in IH.
      rewrite <- !app_assoc in IH. cbn [app] in IH.
      cbn [andb].
      destruct (all_readable files rest); unfold bind; rewrite Hrun; exact IH.
    + destruct (readable files arg) eqn:Hread; cbn [andb].
      * destruct (file_round iswspace unreadable scratch files opens_succeed
                    all before arg s Hflag Hread Hinv) as (s1 & Hrun & Hinv1).
        specialize (IH (before ++ [arg]) s1 Hinv1).
        rewrite file_args_snoc, Hflag, length_app in IH. cbn [List.length] in IH.
        rewrite Nat.add_1_r in IH.
        rewrite requested_snoc, Hflag in IH. cbn [andb] in IH.
        rewrite orb_false_r in IH.
        rewrite <- !app_assoc in IH. cbn [app] in IH.
        unfold bind in Hrun.
        destruct (all_readable files rest); unfold bind;
          (destruct (when (requested "C" before) _ s) as [[] s2| |]; [|discriminate|discriminate]);
          (destruct (wc iswspace unreadable arg s2) as [[] s3| |]; [|discriminate|discriminate]);
          cbn in Hrun |- *; injection Hrun as <-; exact IH.
      * rewrite app_nil_r. destruct Hinv as [Hd _ _ _ _ _ _ _ _ Hout].
        assert (disk s arg = None) as Hnone.
        { rewrite Hd. unfold readable in Hread.
          destruct (files arg); [discriminate|reflexivity]. }
        unfold bind, when. destruct (requested "C" before).
        -- rewrite exclude_comments_exits_first by (right; exact Hnone).
           eexists. split; [reflexivity|exact Hout].
        -- unfold ret. rewrite wc_exits by (right; exact Hnone).
           eexists. split; [reflexivity|exact Hout].
Qed.

End RunFacts.

Section RunSpec.

Variable iswspace : Z -> bool.
Variable unreadable : nat -> bool.
Variable scratch : nat -> c2_values.
Variable stdin : list byte.
Variable temp : temp_env.
Variable files : string -> option (list byte).

Hypothesis opens_succeed : forall n, unreadable n = false.

Lemma after_line_217 (args : list string) :
  exists s0,
    when (match args with
          | [] => true
          | argv1 :: _ => negb (is_flag argv1) || String.eqb argv1 "-C"
          end) (modify (with_flags true true true)) (initial files)
    = Returns tt s0 /\
    after_args iswspace scratch files (default_rule args) [] s0.
Proof.
  fold (default_rule args). destruct (default_rule args); cbn;
    eexists; (split; [reflexivity|]); split; reflexivity.
Qed.

(** The part of [main] that reads standard input (lines 240 to 258),
    when [temp.txt] can be opened for writing. *)
Lemma stdin_branch (args : list string) (s : state) :
  writable temp = true ->
  after_args iswspace scratch files (default_rule args) args s ->
  exists s',
    (write_temp temp (staged stdin 9 false) ;;
     when (requested "C" args)
          (exclude_comments unreadable (scratch 0%nat) temp_txt) ;;
     wc iswspace unreadable temp_txt ;;
     printf Newline ;;
     remove temp temp_txt) s = Returns tt s' /\
    stdout s' =
    stdout s ++
    display (default_rule args || requested "l" args)
            (default_rule args || requested "w" args)
            (default_rule args || requested "c" args)
            (stdin_report iswspace scratch stdin args) ++ [Newline].
Proof.
  intros Hwrite [Hd Hce Hwe HW HL HC _ _ _ _].
  unfold bind at 1. unfold write_temp at 1. rewrite Hwrite. unfold modify at 1.
  set (s1 := with_disk _ s).
  assert (disk s1 temp_txt = Some (staged stdin 9 false)) as Hfile by reflexivity.
  unfold stdin_report, bind, when, remove.
  destruct (requested "C" args), (removable temp).
  - rewrite (exclude_comments_returns _ _ _ _ _ (opens_succeed _)
               (opens_succeed _) Hfile).
    erewrite wc_returns by (try apply opens_succeed; exact Hfile).
    cbn. eexists. split; [reflexivity|]. cbn.
    rewrite Hce, Hwe, HW, HL, HC, <- app_assoc. reflexivity.
  - rewrite (exclude_comments_returns _ _ _ _ _ (opens_succeed _)
               (opens_succeed _) Hfile).
    erewrite wc_returns by (try apply opens_succeed; exact Hfile).
    cbn. eexists. split; [reflexivity|]. cbn.
    rewrite Hce, Hwe, HW, HL, HC, <- app_assoc. reflexivity.
  - unfold ret.
    erewrite wc_returns by (try apply opens_succeed; exact Hfile).
    cbn. eexists. split; [reflexivity|]. cbn.
    rewrite Hce, Hwe, HW, HL, HC, <- app_assoc. reflexivity.
  - unfold ret.
    erewrite wc_returns by (try apply opens_succeed; exact Hfile).
    cbn. eexists. split; [reflexivity|]. cbn.
    rewrite Hce, Hwe, HW, HL, HC, <- app_assoc. reflexivity.
Qed.

(** The same part when [temp.txt] cannot be opened for writing: the null
    stream reaches [fprintf]. *)
Lemma stdin_branch_crashes (e : bool) (s : state) :
  writable temp = false ->
  (write_temp temp (staged stdin 9 false) ;;
   when e (exclude_comments unreadable (scratch 0%nat) temp_txt) ;;
   wc iswspace unreadable temp_txt ;;
   printf Newline ;;
   remove temp temp_txt) s = Crashes s.
Proof.
  intros Hwrite. unfold bind at 1. unfold write_temp. rewrite Hwrite.
  reflexivity.
Qed.

(** A run when no call of [fopen] for reading fails for a reason other
    than a missing file.  Either every file argument is there: then the
    run writes the expected output and the status is 0, unless it is to
    read standard input and [temp.txt] cannot be opened for writing, in
    which case it crashes with nothing written.  Or the run ends at the
    first file argument that is missing, with status [EXIT_FAILURE],
    having written the lines of the files before it and nothing else. *)
Lemma run_spec (args : list string) :
  run iswspace unreadable scratch stdin temp files args =
  if all_readable files args
  then if (List.length (file_args args) =? 0)%nat && negb (writable temp)
       then (Crash, [])
       else (Exit 0, expected_output iswspace scratch stdin files args)
  else (Exit EXIT_FAILURE,
        file_output iswspace scratch files args (handled files args)).
Proof.
  unfold run, main.
  destruct (after_line_217 args) as (s0 & Hrun0 & Hinv0).
  unfold bind at 1. rewrite Hrun0.
  assert (if all_readable files args then
            exists s',
              main_loop iswspace unreadable scratch args false 0 s0 =
              Returns (requested "C" args, List.length (file_args args)) s' /\
              after_args iswspace scratch files (default_rule args) args s'
          else
            exists s',
              main_loop iswspace unreadable scratch args false 0 s0 =
              Exits EXIT_FAILURE s' /\
              stdout s' =
              file_output iswspace scratch files args (handled files args)) as Hloop
    by exact (main_loop_spec iswspace unreadable scratch files opens_succeed
                (default_rule args) args [] s0 Hinv0).
  destruct (all_readable files args).
  - destruct Hloop as (s1 & Hrun1 & Hinv1).
    unfold bind at 1. rewrite Hrun1. cbn [fst snd].
    unfold bind at 1, get at 1.
    unfold expected_output, total_line, stdin_line, file_output.
    destruct (List.length (file_args args)) as [|[|n]] eqn:Hn.
    + cbn [Nat.ltb Nat.leb Nat.eqb when andb].
      unfold bind at 1, ret at 1. unfold bind at 1.
      destruct (writable temp) eqn:Hwrite; cbn [negb].
      * destruct (stdin_branch args s1 Hwrite Hinv1) as (s2 & Hrun2 & Hout2).
        rewrite Hrun2. cbn. rewrite Hout2.
        destruct Hinv1 as [_ _ _ _ _ _ _ _ _ ->]. reflexivity.
      * rewrite (stdin_branch_crashes (requested "C" args) s1 Hwrite).
        destruct Hinv1 as [_ _ _ _ _ _ _ _ _ ->].
        apply length_zero_iff_nil in Hn.
        rewrite (all_flags_no_line args (no_file_all_flags args Hn)).
        reflexivity.
    + cbn. destruct Hinv1 as [_ _ _ _ _ _ _ _ _ ->]. rewrite ?app_nil_r. reflexivity.
    + cbn. destruct Hinv1 as [_ _ _ _ _ _ -> -> -> ->].
      rewrite ?app_nil_r. reflexivity.
  - destruct Hloop as (s1 & Hrun1 & Hout1).
    unfold bind at 1. rewrite Hrun1. unfold file_output. rewrite Hout1. reflexivity.
Qed.

End RunSpec.

(** ** The first pass of [exclude_comments] *)

(** Only the test [c2 == '/'] looks at [c2]. *)
Lemma chars_pass_c2 (f : FILE) (c2 c2' excluded : Z) :
  (c2 =? slash) = (c2' =? slash) ->
  chars_pass f c2 excluded = chars_pass f c2' excluded.
Proof.
  intros H. destruct f as [|b f]; cbn [chars_pass]; [reflexivity|].
  cbv zeta. rewrite H. reflexivity.
Qed.

(** The first pass counts the bytes that comments hold, as an [int].
    [p] is the byte read last, a slash still to be counted if the next
    byte is a slash too. *)
Lemma slash_not_newline (c : Z) : (c =? slash) = true -> (c =? newline) = false.
Proof. unfold slash, newline. lia. Qed.

Lemma comment_bytes_not_slash (b : byte) (f : list byte) :
  (code b =? slash) = false ->
  comment_bytes false (b :: f) = comment_bytes false f.
Proof.
  intros Hb. cbn [comment_bytes]. destruct (code b =? newline); [reflexivity|].
  rewrite Hb. cbn [andb orb]. destruct f; reflexivity.
Qed.

Lemma comment_bytes_single (p : byte) : comment_bytes false [p] = 0.
Proof. cbn. destruct (code p =? newline); reflexivity. Qed.

Lemma comment_bytes_marker (p b : byte) (f : list byte) :
  (code p =? slash) = true -> (code b =? slash) = true ->
  comment_bytes false (p :: b :: f) = 2 + comment_bytes true f.
Proof.
  intros Hp Hb. cbn [comment_bytes].
  rewrite (slash_not_newline _ Hp), (slash_not_newline _ Hb), Hp, Hb.
  cbn [andb orb]. lia.
Qed.

Lemma comment_bytes_no_marker (p b : byte) (f : list byte) :
  (code b =? slash) = false ->
  comment_bytes false (p :: b :: f) = comment_bytes false (b :: f).
Proof.
  intros Hb. remember (b :: f) as t. cbn [comment_bytes].
  destruct (code p =? newline); [reflexivity|].
  subst t. rewrite Hb, andb_false_r. cbn [orb]. lia.
Qed.

Lemma comment_bytes_inside (b : byte) (f : list byte) :
  comment_bytes true (b :: f) =
  if code b =? newline then comment_bytes false f else 1 + comment_bytes true f.
Proof. cbn [comment_bytes]. destruct (code b =? newline); reflexivity. Qed.

Lemma chars_pass_gen (f : FILE) :
  (forall p k,
     chars_pass f (code p) (to_int k) =
     to_int (k + comment_bytes false (if code p =? slash then p :: f else f))) /\
  (forall k,
     chars_comment f (to_int k) = to_int (k + comment_bytes true f)).
Proof.
  induction f as [|b f [IHpass IHcomment]]; split; intros.
  - cbn [chars_pass]. destruct (code p =? slash) eqn:Hp.
    + rewrite comment_bytes_single. apply f_equal. lia.
    + cbn [comment_bytes]. apply f_equal. lia.
  - cbn [chars_comment comment_bytes]. apply f_equal. lia.
  - cbn [chars_pass]. cbv zeta.
    destruct (code p =? slash) eqn:Hp.
    + destruct (code b =? slash) eqn:Hb; cbn [andb orb].
      * unfold int_add. rewrite to_int_add_l, IHcomment.
        rewrite (comment_bytes_marker p b f Hp Hb).
        apply f_equal. lia.
      * rewrite IHpass, Hb.
        rewrite (comment_bytes_no_marker p b f Hb).
        rewrite (comment_bytes_not_slash b f Hb). reflexivity.
    + rewrite andb_false_r. rewrite IHpass.
      destruct (code b =? slash) eqn:Hb; [reflexivity|].
      rewrite (comment_bytes_not_slash b f Hb). reflexivity.
  - cbn [chars_comment]. cbv zeta. rewrite code_not_EOF.
    rewrite comment_bytes_inside.
    destruct (code b =? newline) eqn:Hb; cbn [negb andb].
    + rewrite IHpass.
      assert ((code b =? slash) = false) as ->
        by (apply Z.eqb_eq in Hb; rewrite Hb; reflexivity).
      reflexivity.
    + rewrite incr_to_int, IHcomment. apply f_equal. lia.
Qed.

(** The first pass on a whole file: it counts the bytes that comments
    hold, unless the file begins with a slash and the storage of [c2]
    held a slash, which the pass then takes for the first byte of a
    comment. *)
Lemma chars_pass_comment_bytes (f : FILE) (c2 : Z) :
  c2 <> slash \/ (forall b f', f = b :: f' -> code b <> slash) ->
  chars_pass f c2 0 = to_int (comment_bytes false f).
Proof.
  intros H.
  destruct (c2 =? slash) eqn:Hc2.
  - destruct H as [H|H]; [apply Z.eqb_eq in Hc2; contradiction|].
    destruct f as [|b f]; [reflexivity|].
    specialize (H b f eq_refl). cbn [chars_pass]. cbv zeta.
    assert ((code b =? slash) = false) as Hb by (apply Z.eqb_neq; exact H).
    rewrite Hb. cbn [andb].
    change 0 with (to_int 0) at 1.
    destruct (chars_pass_gen f) as [Hpass _]. rewrite Hpass, Hb.
    rewrite (comment_bytes_not_slash b f Hb). reflexivity.
  - rewrite (chars_pass_c2 f c2 (code Byte.x00) 0) by (rewrite Hc2; reflexivity).
    change 0 with (to_int 0) at 1.
    destruct (chars_pass_gen f) as [Hpass _]. rewrite Hpass. reflexivity.
Qed.

(** ** Exit status *)

Lemma no_total_app (a b : list event) :
  no_total (a ++ b) = no_total a && no_total b.
Proof. apply forallb_app. Qed.

Lemma no_total_display (l w c : bool) (n : counts) :
  no_total (display l w c n) = true.
Proof. destruct l, w, c; reflexivity. Qed.


Section Calm.

Variable iswspace : Z -> bool.
Variable unreadable : nat -> bool.
Variable scratch : nat -> c2_values.
Variable stdin : list byte.
Variable temp : temp_env.






End Calm.

Section Sound.

Variable iswspace : Z -> bool.
Variable unreadable : nat -> bool.
Variable scratch : nat -> c2_values.
Variable stdin : list byte.
Variable temp : temp_env.



Lemma all_readable_app (files : string -> option (list byte)) (a b : list string) :
  all_readable files (a ++ b) = all_readable files a && all_readable files b.
Proof. apply forallb_app. Qed.

Lemma all_readable_file (files : string -> option (list byte)) (name : string) :
  all_readable files [name] = is_flag name || readable files name.
Proof. cbn. apply andb_true_r. Qed.







End Sound.

(** ** The counting scan: claims *)

Lemma count_newlines_nonneg (s : list byte) : 0 <= count_newlines s.
Proof.
  induction s as [|b s IH]; cbn [count_newlines]; [lia|].
  destruct (code b =? newline); lia.
Qed.

Lemma run_starts_nonneg (iswspace : Z -> bool) (s : list byte) :
  forall prev, 0 <= run_starts iswspace prev s.
Proof.
  induction s as [|b s IH]; intros prev; cbn [run_starts]; [lia|].
  specialize (IH (iswspace (code b))).
  destruct (prev && negb (iswspace (code b))); lia.
Qed.

(** A stream without white space has no run that starts after its first
    byte. *)
Lemma run_starts_inside_word (iswspace : Z -> bool) (s : list byte) :
  Forall (fun b => iswspace (code b) = false) s ->
  run_starts iswspace false s = 0.
Proof.
  induction 1 as [|b s Hb Hs IH]; cbn [run_starts]; [reflexivity|].
  rewrite Hb, IH. reflexivity.
Qed.

(** Claim C4.  For every byte stream, the line count of the counting scan
    is the number of newline bytes of the stream: as an [int] in every
    case, and as the number itself when it fits in an [int].  Words and a
    missing final newline play no part.  The C library's [iswspace] is
    taken to accept the newline. *)
Theorem wc_lines_are_newlines (iswspace : Z -> bool) (s : list byte) :
  iswspace newline = true ->
  lines (wc_count iswspace s) = to_int (count_newlines s) /\
  (count_newlines s <= INT_MAX ->
   lines (wc_count iswspace s) = count_newlines s).
Proof.
  intros Hnl.
  assert (lines (wc_count iswspace s) = to_int (count_newlines s)) as H.
  { unfold wc_count.
    destruct (wc_lines_gen iswspace Hnl s) as [Hscan _].
    rewrite (Hscan _ 0) by reflexivity. reflexivity. }
  split; [exact H|]. intros Hfit. rewrite H. apply to_int_small.
  pose proof (count_newlines_nonneg s). unfold INT_MIN. lia.
Qed.

Lemma wc_lines_are_newlines_witness :
  iswspace_C newline = true /\
  count_newlines foo_comment <= INT_MAX /\
  lines (wc_count iswspace_C foo_comment) = count_newlines foo_comment.
Proof.
  split; [reflexivity|]. split; [vm_compute; discriminate|].
  apply (wc_lines_are_newlines iswspace_C foo_comment).
  - reflexivity.
  - vm_compute. discriminate.
Defined.

(** Claim C5.  For every byte stream, the word count of the counting scan
    is the number of maximal runs of bytes that [iswspace] rejects (as an
    [int], and the number itself when it fits); a run that reaches the end
    of the stream is counted.  The empty stream gives (0, 0, 0), and a
    stream that is not empty and has no white space gives one word. *)
Theorem wc_words_are_runs (iswspace : Z -> bool) (s : list byte) :
  words (wc_count iswspace s) = to_int (count_runs iswspace s) /\
  (count_runs iswspace s <= INT_MAX ->
   words (wc_count iswspace s) = count_runs iswspace s) /\
  wc_count iswspace [] = mkCounts 0 0 0 /\
  (s <> [] -> Forall (fun b => iswspace (code b) = false) s ->
   words (wc_count iswspace s) = 1).
Proof.
  assert (words (wc_count iswspace s) = to_int (count_runs iswspace s)) as H.
  { unfold wc_count, count_runs.
    destruct (wc_words_gen iswspace s) as [Hscan _].
    rewrite (Hscan _ 0) by reflexivity. reflexivity. }
  split; [exact H|]. split; [|split; [reflexivity|]].
  - intros Hfit. rewrite H. apply to_int_small.
    pose proof (run_starts_nonneg iswspace s true). unfold count_runs in *.
    unfold INT_MIN. lia.
  - intros Hne Hall. rewrite H. unfold count_runs.
    destruct Hall as [|b s Hb Hs]; [contradiction|].
    cbn [run_starts]. rewrite Hb, (run_starts_inside_word iswspace s Hs).
    reflexivity.
Qed.

Lemma wc_words_are_runs_witness :
  count_runs iswspace_C foo_comment <= INT_MAX /\
  words (wc_count iswspace_C foo_comment) = count_runs iswspace_C foo_comment /\
  bytes "word" <> [] /\
  Forall (fun b => iswspace_C (code b) = false) (bytes "word") /\
  words (wc_count iswspace_C (bytes "word")) = 1.
Proof.
  split; [vm_compute; discriminate|]. split.
  - apply (proj1 (proj2 (wc_words_are_runs iswspace_C foo_comment))).
    vm_compute. discriminate.
  - split; [discriminate|]. split.
    + repeat constructor.
    + apply (proj2 (proj2 (proj2 (wc_words_are_runs iswspace_C (bytes "word"))))).
      * discriminate.
      * repeat constructor.
Defined.

(** The byte count is the number of bytes of the stream when every byte
    that [iswspace] accepts is one of the six bytes of [wspace]. *)
Lemma wc_chars_when_tests_agree (iswspace : Z -> bool) (s : list byte) :
  (forall b, iswspace (code b) = true -> wspace (code b) = true) ->
  chars (wc_count iswspace s) = to_int (Z.of_nat (List.length s)).
Proof.
  intros Hagree. unfold wc_count.
  destruct (wc_chars_gen iswspace Hagree s) as [Hscan _].
  rewrite (Hscan _ 0) by reflexivity. reflexivity.
Qed.

(** Claim C6, which the code does not meet.  The byte that ends a word is
    counted by line 133 only when [wspace] accepts it, while the loop of
    line 130 ends on any byte that [iswspace] accepts: with a C library
    whose [iswspace] accepts the byte 0x85, the stream of the two bytes
    [a] and 0x85 is counted as one byte. *)
Theorem wc_chars_skips_broad_space :
  Z.of_nat (List.length a_nel) = 2 /\
  iswspace_latin1 (code Byte.x85) = true /\
  wspace (code Byte.x85) = false /\
  chars (wc_count iswspace_latin1 a_nel) = 1.
Proof. repeat split. Qed.

(** ** The comment-exclusion pre-pass: claims *)

(** Two white space tests that agree on the bytes of a stream give the
    same counts. *)
Lemma wc_scan_ext (t1 t2 : Z -> bool) (f : FILE) :
  Forall (fun b => t1 (code b) = t2 (code b)) f ->
  (forall n, wc_scan t1 f n = wc_scan t2 f n) /\
  (forall n, wc_word t1 f n = wc_word t2 f n).
Proof.
  induction 1 as [|b f Hb Hf [IHscan IHword]]; split; intros n;
    cbn [wc_scan wc_word]; try reflexivity; cbv zeta; rewrite Hb.
  - destruct (t2 (code b)); cbn [negb]; [apply IHscan|apply IHword].
  - destruct (negb (t2 (code b)) && negb (code b =? EOF));
      [apply IHword|apply IHscan].
Qed.

Lemma foo_comment_ascii (iswspace : Z -> bool) :
  (forall c, 0 <= c <= 127 -> iswspace c = wspace c) ->
  wc_count iswspace foo_comment = wc_count wspace foo_comment.
Proof.
  intros Hascii. unfold wc_count. apply wc_scan_ext.
  repeat constructor; apply Hascii; vm_compute; split; discriminate.
Qed.

(** Evaluation of the passes on a given file when the content of the
    storage of [c2] is not known: both outcomes of every test that reads
    it are followed. *)
Ltac both_outcomes :=
  vm_compute;
  repeat match goal with
         | |- context [match ?x with true => _ | false => _ end] => destruct x
         end;
  reflexivity.

Lemma foo_comment_exclusion (c2s : c2_values) : exclusion c2s foo_comment = (10, 3).
Proof. destruct c2s as [c2 c2_at]. both_outcomes. Qed.

(** Claim C2 as it stands fails: on ["foo // bar baz\n"] the second pass
    counts three words, [//], [bar] and [baz], not two, whatever the
    storage of [c2] held. *)
Lemma foo_comment_excluded_words_not_2 :
  ~ exists c2s : c2_values, snd (exclusion c2s foo_comment) = 2.
Proof. intros [c2s H]. rewrite foo_comment_exclusion in H. discriminate. Qed.

(** Claim C2, amended.  On the file ["foo // bar baz\n"], read with
    comment exclusion, the raw counts are 1 line, 4 words and 15 bytes;
    10 bytes and 3 words are excluded; the counts reported are 1 line,
    1 word and 5 bytes.  [iswspace] is taken to agree with [wspace] on
    the ASCII codes. *)
Theorem foo_comment_counts (iswspace : Z -> bool) (unreadable : nat -> bool)
        (scratch : nat -> c2_values) (stdin : list byte) (temp : temp_env)
        (files : string -> option (list byte)) (name : string) :
  (forall c, 0 <= c <= 127 -> iswspace c = wspace c) ->
  (forall n, unreadable n = false) ->
  is_flag name = false ->
  files name = Some foo_comment ->
  wc_count iswspace foo_comment = mkCounts 1 4 15 /\
  (forall c2s, exclusion c2s foo_comment = (10, 3)) /\
  (forall c2s,
     adjusted (wc_count iswspace foo_comment)
              (fst (exclusion c2s foo_comment)) (snd (exclusion c2s foo_comment))
     = mkCounts 1 1 5) /\
  run iswspace unreadable scratch stdin temp files ["-C"%string; name] =
  (Exit 0, [Count 1; Count 1; Count 5; Name name]).
Proof.
  intros Hascii Hopen Hflag Hfile.
  assert (wc_count iswspace foo_comment = mkCounts 1 4 15) as Hraw
    by (rewrite (foo_comment_ascii iswspace Hascii); reflexivity).
  split; [exact Hraw|]. split; [exact foo_comment_exclusion|]. split.
  - intros c2s. rewrite foo_comment_exclusion, Hraw. reflexivity.
  - rewrite (run_spec iswspace unreadable scratch stdin temp files Hopen).
    unfold all_readable, readable. cbn [forallb]. rewrite Hflag, Hfile.
    cbn [orb andb].
    change (is_flag "-C") with true. cbn [orb andb].
    unfold expected_output, file_output, total_line, stdin_line, file_args.
    cbn [file_lines filter app]. change (is_flag "-C") with true.
    rewrite Hflag.
    cbn [negb filter List.length Nat.ltb Nat.leb Nat.eqb map List.concat app].
    unfold line_events, report, content. cbn [fst snd].
    rewrite Hfile, foo_comment_exclusion, Hraw.
    reflexivity.
Qed.

Lemma foo_comment_counts_witness :
  run iswspace_C never zeros [] ordinary two_files ["-C"%string; "f1"%string] =
  (Exit 0, [Count 1; Count 1; Count 5; Name "f1"]).
Proof.
  apply (foo_comment_counts iswspace_C never zeros [] ordinary two_files "f1").
  - intros c _. reflexivity.
  - intros n. reflexivity.
  - reflexivity.
  - reflexivity.
Defined.

(** Claim C1, which the code does not meet.  The flag
    [no_space_before_comment] is set from the first byte of the token
    alone (line 185).  In ["/a//b\n"] the marker is glued to [/a], the
    comment holds one word, and nothing is taken off: one word is
    excluded, and the word [/a] is not reported, whatever the storage of
    [c2] held. *)
Theorem slash_token_glued_comment (c2s : c2_values) :
  count_runs wspace slash_a_glued = 1 /\
  snd (exclusion c2s slash_a_glued) = 1 /\
  words (adjusted (wc_count iswspace_C slash_a_glued)
                  (fst (exclusion c2s slash_a_glued))
                  (snd (exclusion c2s slash_a_glued))) = 0.
Proof.
  destruct c2s as [c2 c2_at].
  assert (snd (exclusion (c2, c2_at) slash_a_glued) = 1) as H by both_outcomes.
  rewrite H. repeat split.
Qed.

(** On ["foo//bar baz\n"] the word [foo] stays in the count: one word is
    excluded out of two. *)
Lemma foo_glued_counts (c2s : c2_values) :
  words (wc_count iswspace_C foo_glued) = 2 /\
  snd (exclusion c2s foo_glued) = 1.
Proof. destruct c2s. split; reflexivity. Qed.

(** Claim C3, which the code does not meet.  The file ["/a"] holds no
    two slashes in a row, so no byte of it is in a comment; when the
    storage of [c2] holds a slash as the first pass begins, the pass takes
    the first byte for the second slash of a marker and excludes three
    bytes. *)
Theorem chars_pass_reads_c2_unset :
  comment_bytes false slash_a = 0 /\
  chars_pass slash_a slash 0 = 3 /\
  chars_pass slash_a 0 0 = 0.
Proof. repeat split. Qed.

(** Claim C10, which the code does not meet.  On the file ["/x"] the
    excluded counts are (3, 1) when the storage of [c2] holds a slash as
    each pass reads it, and (0, 0) when it holds 0: the result of
    [exclude_comments] is not a function of the bytes of the file. *)
Theorem exclusion_depends_on_c2 :
  exclusion c2_slash slash_x = (3, 1) /\
  exclusion c2_zero slash_x = (0, 0) /\
  (exists s, exclude_comments never c2_slash "f" (initial one_file)
             = Returns tt s /\ CHARS_EXCLUDED s = 3 /\ WORDS_EXCLUDED s = 1) /\
  (exists s, exclude_comments never c2_zero "f" (initial one_file)
             = Returns tt s /\ CHARS_EXCLUDED s = 0 /\ WORDS_EXCLUDED s = 0).
Proof.
  repeat split; eexists; (split; [reflexivity|]); split; reflexivity.
Qed.

(** The same defect when the storage of [c2] is simply left alone between
    two tokens: in ["// c\n/ x\n"] the slash that begins the second line
    is taken for the end of a marker, and the four words of the file are
    excluded, two of them outside any comment. *)
Example second_line_taken_for_comment :
  snd (exclusion c2_zero comment_then_slash) = 2 /\
  snd (exclusion c2_left_over comment_then_slash) = 4 /\
  words (wc_count iswspace_C comment_then_slash) = 4.
Proof. repeat split. Qed.

(** ** The second pass on a line that holds a comment *)

Section SecondPassFacts.

Variable c2_at : nat -> Z.

(** The loop of line 192 counts the ends of the words of the comment,
    which are as many as its words: the runs of the bytes that [wspace]
    rejects, the run that holds [c4] included.  [p] is the byte held by
    [c4]. *)
Lemma words_comment_counts (body : list byte) :
  Forall (fun b => (code b =? newline) = false) body ->
  forall (p : byte) (r : nat) (nsb : bool) (k : Z),
    let n := count_runs wspace (p :: body) - (if nsb then 1 else 0) in
    words_comment c2_at body (code p) r nsb (to_int k) = to_int (k + n) /\
    forall rest,
      words_comment c2_at (body ++ line_feed ++ rest) (code p) r nsb (to_int k) =
      words_pass c2_at rest r (to_int (k + n)).
Proof.
  unfold count_runs.
  induction 1 as [|b body Hb Hbody IH]; intros p r nsb k; cbv zeta.
  - assert (end_comment (code p) nsb (to_int k) =
            to_int (k + (run_starts wspace true [p] - (if nsb then 1 else 0))))
      as Hend.
    { unfold end_comment. cbn [run_starts andb].
      destruct (wspace (code p)); cbn [negb];
        rewrite ?incr_to_int; destruct nsb; rewrite ?decr_to_int;
        apply f_equal; lia. }
    split; [exact Hend|]. intros rest. cbn [app line_feed words_comment]. cbv zeta.
    change (code "010"%byte =? newline) with true. cbn [negb andb].
    rewrite Hend. reflexivity.
  - cbn [app words_comment]. cbv zeta. rewrite Hb, code_not_EOF. cbn [negb andb].
    destruct (IH b r nsb (if negb (wspace (code p)) && wspace (code b)
                          then k + 1 else k)) as [IHeof IHline].
    assert ((if negb (wspace (code p)) && wspace (code b)
             then incr (to_int k) else to_int k)
            = to_int (if negb (wspace (code p)) && wspace (code b) then k + 1 else k))
      as Hk by (destruct (negb (wspace (code p)) && wspace (code b));
                rewrite ?incr_to_int; reflexivity).
    rewrite Hk.
    assert (k + (run_starts wspace true (p :: b :: body) - (if nsb then 1 else 0)) =
            (if negb (wspace (code p)) && wspace (code b) then k + 1 else k)
            + (run_starts wspace true (b :: body) - (if nsb then 1 else 0))) as ->.
    { cbn [run_starts andb].
      destruct (wspace (code p)), (wspace (code b)); cbn [negb andb]; lia. }
    split; [exact IHeof|exact IHline].
Qed.

(** Inside a token, up to the marker. *)
Lemma words_token_to_marker (t : list byte) :
  forall (prev : Z) (m1 m2 : byte) (f : FILE) (r : nat) (nsb : bool) (e : Z),
    unmarked prev t = true ->
    code m1 = slash -> code m2 = slash ->
    words_token c2_at (t ++ m1 :: m2 :: f) prev r nsb e =
    words_comment c2_at f slash r nsb e.
Proof.
  induction t as [|b t IH]; intros prev m1 m2 f r nsb e Ht H1 H2.
  - cbn [unmarked] in Ht. apply negb_true_iff in Ht.
    cbn [app words_token]. cbv zeta.
    rewrite H1, H2, Ht. reflexivity.
  - cbn [unmarked] in Ht.
    apply andb_true_iff in Ht as [Ht Hrest].
    apply andb_true_iff in Ht as [Hws Hmark].
    cbn [app words_token]. cbv zeta.
    rewrite code_not_EOF, Hws. cbn [andb negb].
    apply negb_true_iff in Hmark. rewrite Hmark.
    apply IH; assumption.
Qed.

(** The rule of the second pass on a line [t // body]: when the token [t]
    is not empty and does not begin with a slash, the words of the comment
    are excluded but one, so that [t] stays in the count; when the marker
    begins the token, all the words of the comment are excluded, whatever
    the storage of [c2] held.  [r] counts the tokens read before. *)
Lemma words_pass_comment_line (m1 m2 : byte) (body rest : list byte)
      (r : nat) (k : Z) :
  code m1 = slash -> code m2 = slash ->
  Forall (fun b => (code b =? newline) = false) body ->
  (forall b t,
     wspace (code b) = false -> code b <> slash -> unmarked (code b) t = true ->
     words_pass c2_at (b :: t ++ m1 :: m2 :: body ++ line_feed ++ rest) r (to_int k) =
     words_pass c2_at rest (S r)
                (to_int (k + (count_runs wspace (m2 :: body) - 1)))) /\
  words_pass c2_at (m1 :: m2 :: body ++ line_feed ++ rest) r (to_int k) =
  words_pass c2_at rest (S r) (to_int (k + count_runs wspace (m2 :: body))).
Proof.
  intros H1 H2 Hbody. split.
  - intros b t Hws Hb Ht.
    cbn [words_pass]. cbv zeta. rewrite Hws. cbn [negb].
    assert ((code b =? slash) = false) as Hbs by (apply Z.eqb_neq; exact Hb).
    rewrite Hbs. cbn [andb negb].
    rewrite (words_token_to_marker t (code b) m1 m2 _ (S r) true (to_int k) Ht H1 H2).
    pose proof (proj2 (words_comment_counts body Hbody m2 (S r) true k)) as Hline.
    cbv zeta in Hline. rewrite H2 in Hline. apply Hline.
  - pose proof (proj2 (words_comment_counts body Hbody m2 (S r) false k)) as Hline.
    cbv zeta in Hline. rewrite H2 in Hline.
    assert (count_runs wspace (m2 :: body) - 0 = count_runs wspace (m2 :: body))
      as Hn by lia.
    rewrite Hn in Hline.
    cbn [words_pass]. cbv zeta. rewrite H1.
    change (wspace slash) with false. change (slash =? slash) with true.
    cbn [negb andb].
    destruct (c2_at r =? slash).
    + (* the marker is seen one byte early, at [m1] *)
      cbn [words_comment]. cbv zeta. rewrite code_not_EOF, H2.
      change (slash =? newline) with false. change (wspace slash) with false.
      cbn [negb andb]. apply Hline.
    + cbn [words_token]. cbv zeta. rewrite code_not_EOF, H2.
      change (wspace slash) with false. change (slash =? slash) with true.
      cbn [negb andb]. apply Hline.
Qed.

End SecondPassFacts.

(** ** The driver: claims *)

(** The file ["hello world\n"] given alone and without flags: one line,
    two words, twelve bytes, then the name. *)
Example hello_world_run :
  run iswspace_C never zeros [] ordinary two_files ["f2"%string] =
  (Exit 0, [Count 1; Count 2; Count 12; Name "f2"]).
Proof. reflexivity. Qed.

(** Standard input, staged through [temp.txt], with [-l] alone: only the
    line count is written, and no name. *)
Example stdin_lines_run :
  run iswspace_C never zeros hello_world ordinary two_files ["-l"%string] =
  (Exit 0, [Count 1; Newline]).
Proof. reflexivity. Qed.

(** Claim C7.  [wc] writes for a file the counts (lines, words less
    [WORDS_EXCLUDED], bytes less [CHARS_EXCLUDED]), adds these same
    numbers to the totals and sets the two excluded counts back to zero.
    When two file arguments or more are given and all can be read, the run
    ends with the line of totals, whose three numbers are the sums of the
    counts reported for the files, held in an [int]: the sums themselves
    when they fit.  The counts reported for a file, [report], are
    computed from excluded counts that start at zero for that file. *)
Theorem reported_counts_and_totals
        (iswspace : Z -> bool) (unreadable : nat -> bool)
        (scratch : nat -> c2_values) (stdin : list byte) (temp : temp_env)
        (files : string -> option (list byte)) :
  (forall n, unreadable n = false) ->
  (forall filename s f,
     disk s filename = Some f ->
     let n := adjusted (wc_count iswspace f) (CHARS_EXCLUDED s) (WORDS_EXCLUDED s) in
     exists s',
       wc iswspace unreadable filename s = Returns tt s' /\
       stdout s' = stdout s ++ display (L s) (W s) (C s) n /\
       TOTAL_LINES s' = int_add (TOTAL_LINES s) (lines n) /\
       TOTAL_WORDS s' = int_add (TOTAL_WORDS s) (words n) /\
       TOTAL_CHARS s' = int_add (TOTAL_CHARS s) (chars n) /\
       CHARS_EXCLUDED s' = 0 /\ WORDS_EXCLUDED s' = 0) /\
  (forall args,
     all_readable files args = true ->
     (2 <= List.length (file_args args))%nat ->
     let rs := reports iswspace scratch files args in
     exists l w c,
       run iswspace unreadable scratch stdin temp files args =
       (Exit 0, file_output iswspace scratch files args args ++ [Total l w c]) /\
       l = to_int (sum (map lines rs)) /\
       w = to_int (sum (map words rs)) /\
       c = to_int (sum (map chars rs)) /\
       (INT_MIN <= sum (map lines rs) <= INT_MAX -> l = sum (map lines rs)) /\
       (INT_MIN <= sum (map words rs) <= INT_MAX -> w = sum (map words rs)) /\
       (INT_MIN <= sum (map chars rs) <= INT_MAX -> c = sum (map chars rs))).
Proof.
  intros Hopen. split.
  - intros filename s f Hfile n. eexists. split.
    + apply (wc_returns iswspace unreadable filename s f (Hopen _) Hfile).
    + cbn. repeat split.
  - intros args Hread Hmany rs.
    exists (to_int (sum (map lines rs))), (to_int (sum (map words rs))),
           (to_int (sum (map chars rs))).
    split.
    + rewrite (run_spec iswspace unreadable scratch stdin temp files Hopen), Hread.
      unfold expected_output, total_line, stdin_line.
      destruct (List.length (file_args args)) as [|[|n]]; [lia|lia|].
      cbn [Nat.ltb Nat.leb Nat.eqb]. rewrite app_nil_r. reflexivity.
    + repeat split; try (intros Hfit; apply to_int_small, Hfit).
Qed.

Lemma reported_counts_and_totals_witness :
  run iswspace_C never zeros [] ordinary two_files ["-C"%string; "f1"%string; "f2"%string] =
  (Exit 0, [Count 1; Count 1; Count 5; Name "f1"; Count 1; Count 2; Count 12; Name "f2";
       Total 2 3 17]).
Proof.
  destruct (proj2 (reported_counts_and_totals iswspace_C never zeros [] ordinary two_files
                     (fun n => eq_refl))
                  ["-C"%string; "f1"%string; "f2"%string] eq_refl (le_n 2))
    as (l & w & c & Hrun & -> & -> & -> & _).
  exact Hrun.
Defined.

Lemma handled_all (files : string -> option (list byte)) (args : list string) :
  all_readable files args = true -> handled files args = args.
Proof.
  induction args as [|arg rest IH]; cbn [all_readable forallb handled];
    [reflexivity|].
  fold (all_readable files rest).
  destruct (is_flag arg || readable files arg); cbn [andb]; [|discriminate].
  intros H. rewrite (IH H). reflexivity.
Qed.

(** Claim C8, which the code does not meet.  With the arguments
    [-C -l f2] the letter [l] is the only one of [l], [w] and [c] that is
    given, and the line of [f2] shows the three counts: line 217 switches
    all three on because the first argument is exactly [-C], and no flag
    switches a count off.  The same letters given as [-l -C f2] or as
    [-Cl f2] show the line count alone, as the header of the source says
    of an option.  [f2] holds ["hello world\n"]. *)
Theorem counts_flag_after_comments_flag
        (scratch : nat -> c2_values) (stdin : list byte) (temp : temp_env) :
  requested "l" ["-C"%string; "-l"%string; "f2"%string] = true /\
  requested "w" ["-C"%string; "-l"%string; "f2"%string] = false /\
  requested "c" ["-C"%string; "-l"%string; "f2"%string] = false /\
  run iswspace_C never scratch stdin temp two_files
      ["-C"%string; "-l"%string; "f2"%string] =
  (Exit 0, [Count 1; Count 2; Count 12; Name "f2"]) /\
  run iswspace_C never scratch stdin temp two_files
      ["-l"%string; "-C"%string; "f2"%string] =
  (Exit 0, [Count 1; Name "f2"]) /\
  run iswspace_C never scratch stdin temp two_files ["-Cl"%string; "f2"%string] =
  (Exit 0, [Count 1; Name "f2"]).
Proof.
  repeat split.
Qed.

(** The loop of [main] over flag arguments alone: it comes back with
    [numfiles] as it was, having opened no file and written nothing. *)
Lemma main_loop_flags
      (iswspace : Z -> bool) (unreadable : nat -> bool)
      (scratch : nat -> c2_values) (args : list string) :
  Forall (fun a => is_flag a = true) args ->
  forall (e : bool) (n : nat) (s : state),
    exists e' s',
      main_loop iswspace unreadable scratch args e n s = Returns (e', n) s' /\
      stdout s' = stdout s /\ disk s' = disk s /\ opens s' = opens s.
Proof.
  induction 1 as [|arg rest Harg _ IH]; intros e n s; cbn [main_loop].
  - exists e, s. repeat split.
  - rewrite Harg. unfold bind. rewrite set_flags_returns.
    match goal with
    | |- context [main_loop _ _ _ rest ?e1 n ?s1] =>
        destruct (IH e1 n s1) as (e' & s' & -> & Hout & Hdisk & Hopens)
    end.
    exists e', s'. repeat split; assumption.
Qed.

(** A run without a file argument when [temp.txt] cannot be opened for
    writing. *)
Lemma stdin_run_crashes
      (iswspace : Z -> bool) (unreadable : nat -> bool)
      (scratch : nat -> c2_values) (stdin : list byte) (temp : temp_env)
      (files : string -> option (list byte)) (args : list string) :
  file_args args = [] ->
  writable temp = false ->
  run iswspace unreadable scratch stdin temp files args = (Crash, []).
Proof.
  intros Hnone Hwrite.
  unfold run, main. unfold bind at 1.
  assert (exists s0,
             when (match args with
                   | [] => true
                   | argv1 :: _ => negb (is_flag argv1) || String.eqb argv1 "-C"
                   end) (modify (with_flags true true true)) (initial files)
             = Returns tt s0 /\ stdout s0 = []) as (s0 & -> & Hs0).
  { destruct (match args with [] => true | _ => _ end);
      eexists; split; reflexivity. }
  destruct (main_loop_flags iswspace unreadable scratch args
              (no_file_all_flags args Hnone) false 0%nat s0)
    as (e & s1 & Hloop & Hout & _).
  unfold bind at 1. rewrite Hloop. cbn [fst snd].
  unfold bind at 1, get at 1. cbn [Nat.ltb Nat.leb Nat.eqb when].
  unfold bind at 1, ret at 1. unfold bind at 1.
  rewrite (stdin_branch_crashes iswspace unreadable scratch stdin temp e s1 Hwrite).
  rewrite Hout, Hs0. reflexivity.
Qed.

(** Claim C9, which the code does not meet.  A run without a file
    argument reads standard input through [temp.txt].  The stream that
    [fopen] returns for it at line 242 is not tested: when [temp.txt]
    cannot be opened for writing, line 250 passes a null stream to
    [fprintf] and the process crashes, with nothing written.  The run
    ends neither with status 0 nor through [exit] with a failure status,
    whichever flags are given, whatever the directory and standard input
    hold, and whether or not the calls of [fopen] for reading would
    succeed. *)
Theorem temp_stream_unchecked
        (iswspace : Z -> bool) (unreadable : nat -> bool)
        (scratch : nat -> c2_values) (stdin : list byte) (temp : temp_env)
        (files : string -> option (list byte)) (args : list string) :
  file_args args = [] ->
  writable temp = false ->
  run iswspace unreadable scratch stdin temp files args = (Crash, []) /\
  forall status,
    fst (run iswspace unreadable scratch stdin temp files args) <> Exit status.
Proof.
  intros Hnone Hwrite.
  rewrite (stdin_run_crashes iswspace unreadable scratch stdin temp files args
             Hnone Hwrite).
  split; [reflexivity|]. intros status. discriminate.
Qed.

Lemma temp_stream_unchecked_witness :
  run iswspace_C never zeros hello_world read_only two_files [] = (Crash, []) /\
  run iswspace_C never zeros hello_world ordinary two_files [] =
  (Exit 0, [Count 1; Count 2; Count 12; Newline]).
Proof.
  split; [|reflexivity].
  apply (temp_stream_unchecked iswspace_C never zeros hello_world read_only
           two_files []); reflexivity.
Defined.

(** * Further properties *)

(** ** The counting scan *)

Section CountingScanMore.

Variable iswspace : Z -> bool.

Lemma wc_chars_exact_gen (f : FILE) :
  (forall n k, chars n = to_int k ->
     chars (wc_scan iswspace f n) =
     to_int (k + Z.of_nat (List.length f) - uncounted iswspace false f)) /\
  (forall n k, chars n = to_int k ->
     chars (wc_word iswspace f n) =
     to_int (k + Z.of_nat (List.length f) - uncounted iswspace true f)).
Proof.
  induction f as [|b f [IHscan IHword]]; split; intros n k Hk;
    cbn [wc_scan wc_word List.length uncounted]; cbv zeta.
  - rewrite Hk. apply f_equal. lia.
  - cbn [incr_words chars]. rewrite Hk. apply f_equal. lia.
  - destruct (iswspace (code b)) eqn:Hb; cbn [negb andb].
    + rewrite (IHscan _ (k + 1)).
      * apply f_equal. lia.
      * destruct (code b =? newline); cbn [incr_lines incr_chars chars];
          rewrite Hk; apply incr_to_int.
    + rewrite (IHword _ (k + 1)).
      * apply f_equal. lia.
      * cbn [incr_chars chars]. rewrite Hk. apply incr_to_int.
  - rewrite code_not_EOF. destruct (iswspace (code b)) eqn:Hb; cbn [negb andb].
    + destruct (wspace (code b)) eqn:Hw; cbn [negb].
      * rewrite (IHscan _ (k + 1)).
        -- apply f_equal. lia.
        -- destruct (code b =? newline);
             cbn [incr_lines incr_words incr_chars chars];
             rewrite Hk; apply incr_to_int.
      * rewrite (IHscan _ k).
        -- apply f_equal. lia.
        -- destruct (code b =? newline);
             cbn [incr_lines incr_words incr_chars chars]; exact Hk.
    + rewrite (IHword _ (k + 1)).
      * apply f_equal. lia.
      * cbn [incr_chars chars]. rewrite Hk. apply incr_to_int.
Qed.

Lemma uncounted_bounds (s : list byte) :
  forall in_word,
    0 <= uncounted iswspace in_word s <= Z.of_nat (List.length s).
Proof.
  induction s as [|b s IH]; intros in_word; cbn [uncounted List.length]; [lia|].
  specialize (IH (negb (iswspace (code b)))).
  destruct (in_word && iswspace (code b) && negb (wspace (code b))); lia.
Qed.

(** Every step of the scan leaves values of an [int] in the counters. *)
Lemma wc_scan_in_int (f : FILE) :
  (forall n, in_int n -> in_int (wc_scan iswspace f n)) /\
  (forall n, in_int n -> in_int (wc_word iswspace f n)).
Proof.
  assert (forall n, in_int n -> in_int (incr_chars n)) as Hc.
  { intros n (Hl & Hw & Hc). repeat split; cbn; try assumption.
    unfold incr, int_add. symmetry. apply to_int_idem. }
  assert (forall n, in_int n -> in_int (incr_words n)) as Hw.
  { intros n (Hl & Hw & Hc'). repeat split; cbn; try assumption.
    unfold incr, int_add. symmetry. apply to_int_idem. }
  assert (forall n, in_int n -> in_int (incr_lines n)) as Hl.
  { intros n (Hl & Hw' & Hc'). repeat split; cbn; try assumption.
    unfold incr, int_add. symmetry. apply to_int_idem. }
  induction f as [|b f [IHscan IHword]]; split; intros n Hn;
    cbn [wc_scan wc_word]; cbv zeta; auto.
  - destruct (negb (iswspace (code b))); [auto|].
    destruct (code b =? newline); auto.
  - destruct (negb (iswspace (code b)) && negb (code b =? EOF)); [auto|].
    apply IHscan.
    destruct (wspace (code b)), (code b =? newline); auto.
Qed.

Lemma plus_counts_incr_chars (n m : counts) :
  incr_chars (plus_counts n m) = plus_counts n (incr_chars m).
Proof.
  unfold plus_counts, incr_chars, incr, int_add. cbn. f_equal.
  rewrite to_int_add_l, to_int_add_r. apply f_equal. lia.
Qed.

Lemma plus_counts_incr_words (n m : counts) :
  incr_words (plus_counts n m) = plus_counts n (incr_words m).
Proof.
  unfold plus_counts, incr_words, incr, int_add. cbn. f_equal.
  rewrite to_int_add_l, to_int_add_r. apply f_equal. lia.
Qed.

Lemma plus_counts_incr_lines (n m : counts) :
  incr_lines (plus_counts n m) = plus_counts n (incr_lines m).
Proof.
  unfold plus_counts, incr_lines, incr, int_add. cbn. f_equal.
  rewrite to_int_add_l, to_int_add_r. apply f_equal. lia.
Qed.

(** The scan adds to the counters it starts from. *)
Lemma wc_scan_plus (f : FILE) :
  (forall n m,
     wc_scan iswspace f (plus_counts n m) = plus_counts n (wc_scan iswspace f m)) /\
  (forall n m,
     wc_word iswspace f (plus_counts n m) = plus_counts n (wc_word iswspace f m)).
Proof.
  induction f as [|b f [IHscan IHword]]; split; intros n m;
    cbn [wc_scan wc_word]; cbv zeta.
  - reflexivity.
  - apply plus_counts_incr_words.
  - rewrite plus_counts_incr_chars.
    destruct (negb (iswspace (code b))); [apply IHword|].
    destruct (code b =? newline);
      rewrite ?plus_counts_incr_lines; apply IHscan.
  - destruct (negb (iswspace (code b)) && negb (code b =? EOF)).
    + rewrite plus_counts_incr_chars. apply IHword.
    + destruct (wspace (code b)), (code b =? newline);
        rewrite ?plus_counts_incr_chars, ?plus_counts_incr_words,
                ?plus_counts_incr_lines; apply IHscan.
Qed.

(** The scan of a stream cut after a white space byte: the second part
    is scanned from the counters that the first part leaves. *)
Lemma wc_scan_app (a : list byte) (w : byte) :
  iswspace (code w) = true ->
  forall b,
    (forall n, wc_scan iswspace (a ++ w :: b) n =
               wc_scan iswspace b (wc_scan iswspace (a ++ [w]) n)) /\
    (forall n, wc_word iswspace (a ++ w :: b) n =
               wc_scan iswspace b (wc_word iswspace (a ++ [w]) n)).
Proof.
  intros Hw b. induction a as [|x a [IHscan IHword]]; split; intros n;
    cbn [app wc_scan wc_word]; cbv zeta.
  - rewrite Hw. reflexivity.
  - rewrite Hw. reflexivity.
  - destruct (negb (iswspace (code x))); [apply IHword|apply IHscan].
  - destruct (negb (iswspace (code x)) && negb (code x =? EOF));
      [apply IHword|apply IHscan].
Qed.

End CountingScanMore.

(** Property X1.  For every stream and every [iswspace], the byte count
    of the counting scan is the number of bytes of the stream less the
    number of bytes that end a word and that [iswspace] accepts but
    [wspace] does not (line 133 counts the byte that ends a word only
    under [wspace]); held in an [int].  So the count never exceeds the
    number of bytes when that number fits in an [int]. *)
Theorem wc_chars_exact (iswspace : Z -> bool) (s : list byte) :
  chars (wc_count iswspace s) =
  to_int (Z.of_nat (List.length s) - uncounted iswspace false s) /\
  (Z.of_nat (List.length s) <= INT_MAX ->
   chars (wc_count iswspace s) =
   Z.of_nat (List.length s) - uncounted iswspace false s /\
   0 <= chars (wc_count iswspace s) <= Z.of_nat (List.length s)).
Proof.
  assert (chars (wc_count iswspace s) =
          to_int (Z.of_nat (List.length s) - uncounted iswspace false s)) as H.
  { unfold wc_count. destruct (wc_chars_exact_gen iswspace s) as [Hscan _].
    rewrite (Hscan _ 0) by reflexivity. apply f_equal. lia. }
  split; [exact H|]. intros Hfit.
  pose proof (uncounted_bounds iswspace s false) as Hb.
  rewrite H, to_int_small by (unfold INT_MIN; lia). lia.
Qed.

Lemma wc_chars_exact_witness :
  Z.of_nat (List.length a_nel) <= INT_MAX /\
  chars (wc_count iswspace_latin1 a_nel) =
  Z.of_nat (List.length a_nel) - uncounted iswspace_latin1 false a_nel.
Proof.
  split; [vm_compute; discriminate|].
  apply (proj2 (wc_chars_exact iswspace_latin1 a_nel)).
  vm_compute. discriminate.
Defined.

(** Property X2.  When every byte that [iswspace] accepts is one of the
    six bytes of [wspace], the byte count of the counting scan is the
    number of bytes of the stream, for every stream of at most
    [INT_MAX] bytes. *)
Theorem wc_chars_are_bytes (iswspace : Z -> bool) (s : list byte) :
  (forall b, iswspace (code b) = true -> wspace (code b) = true) ->
  Z.of_nat (List.length s) <= INT_MAX ->
  chars (wc_count iswspace s) = Z.of_nat (List.length s).
Proof.
  intros Hagree Hfit.
  rewrite (wc_chars_when_tests_agree iswspace s Hagree).
  apply to_int_small. unfold INT_MIN. lia.
Qed.

Lemma wc_chars_are_bytes_witness :
  chars (wc_count iswspace_C foo_comment) = Z.of_nat (List.length foo_comment).
Proof.
  apply (wc_chars_are_bytes iswspace_C foo_comment).
  - intros b H. exact H.
  - vm_compute. discriminate.
Defined.

(** Property X3.  When a stream is cut after a byte that [iswspace]
    accepts, the counts of the whole stream are the sums of the counts of
    the two parts, each sum held in an [int]: counting two files one after
    the other gives the counts of their concatenation when the first ends
    with white space. *)
Theorem wc_count_app (iswspace : Z -> bool) (a : list byte) (w : byte)
        (b : list byte) :
  iswspace (code w) = true ->
  wc_count iswspace (a ++ w :: b) =
  plus_counts (wc_count iswspace (a ++ [w])) (wc_count iswspace b).
Proof.
  intros Hw. unfold wc_count.
  rewrite (proj1 (wc_scan_app iswspace a w Hw b)).
  set (n := wc_scan iswspace (a ++ [w]) (mkCounts 0 0 0)).
  assert (in_int n) as (Hl & Hwd & Hc).
  { apply wc_scan_in_int. repeat split. }
  assert (n = plus_counts n (mkCounts 0 0 0)) as Hn.
  { unfold plus_counts, int_add. cbn. rewrite !Z.add_0_r, <- Hl, <- Hwd, <- Hc.
    destruct n; reflexivity. }
  rewrite Hn at 1. apply wc_scan_plus.
Qed.

Lemma wc_count_app_witness :
  wc_count iswspace_C (a_b_line ++ bytes "c") = mkCounts 1 3 5.
Proof.
  change (a_b_line ++ bytes "c")%list
    with (bytes "a b" ++ Byte.x0a :: bytes "c")%list.
  rewrite (wc_count_app iswspace_C (bytes "a b") Byte.x0a (bytes "c")).
  - reflexivity.
  - reflexivity.
Defined.

(** ** The first pass of [exclude_comments] *)

Lemma comment_bytes_bounds (s : list byte) :
  forall in_comment,
    0 <= comment_bytes in_comment s <= Z.of_nat (List.length s) - count_newlines s.
Proof.
  induction s as [|a t IH]; intros in_comment;
    cbn [comment_bytes count_newlines List.length]; [lia|].
  destruct (code a =? newline).
  - specialize (IH false). lia.
  - cbv zeta.
    destruct (in_comment
              || match t with
                 | [] => false
                 | b :: _ => (code a =? slash) && (code b =? slash)
                 end) eqn:Hin.
    + specialize (IH true). lia.
    + specialize (IH false). lia.
Qed.

Lemma uncommented_length (s : list byte) :
  forall in_comment,
    Z.of_nat (List.length (uncommented in_comment s)) + comment_bytes in_comment s
    = Z.of_nat (List.length s).
Proof.
  induction s as [|a t IH]; intros in_comment;
    cbn [comment_bytes uncommented List.length]; [reflexivity|].
  destruct (code a =? newline).
  - specialize (IH false). cbn [List.length]. lia.
  - cbv zeta.
    destruct (in_comment
              || match t with
                 | [] => false
                 | b :: _ => (code a =? slash) && (code b =? slash)
                 end) eqn:Hin.
    + specialize (IH true). lia.
    + specialize (IH false). cbn [List.length]. lia.
Qed.

Lemma uncommented_newlines (s : list byte) :
  forall in_comment,
    count_newlines (uncommented in_comment s) = count_newlines s.
Proof.
  induction s as [|a t IH]; intros in_comment;
    cbn [uncommented count_newlines]; [reflexivity|].
  destruct (code a =? newline) eqn:Ha.
  - cbn [count_newlines]. rewrite Ha, IH. reflexivity.
  - cbv zeta.
    destruct (in_comment
              || match t with
                 | [] => false
                 | b :: _ => (code a =? slash) && (code b =? slash)
                 end).
    + rewrite IH. lia.
    + cbn [count_newlines]. rewrite Ha, IH. reflexivity.
Qed.

(** The first pass with [c2] holding a slash runs as on the file with one
    more slash put before it. *)
Lemma chars_pass_with_c2 (f : FILE) (c2 : Z) :
  chars_pass f c2 0 =
  to_int (comment_bytes false (if c2 =? slash then Byte.x2f :: f else f)).
Proof.
  destruct (chars_pass_gen f) as [Hpass _].
  destruct (c2 =? slash) eqn:Hc2.
  - rewrite (chars_pass_c2 f c2 (code Byte.x2f) 0) by (rewrite Hc2; reflexivity).
    change 0 with (to_int 0) at 1. rewrite Hpass. reflexivity.
  - rewrite (chars_pass_c2 f c2 (code Byte.x00) 0) by (rewrite Hc2; reflexivity).
    change 0 with (to_int 0) at 1. rewrite Hpass. reflexivity.
Qed.

Lemma chars_pass_unmarked (f : FILE) (c2 : Z) :
  marker c2 f = false ->
  chars_pass f c2 0 = to_int (comment_bytes false f).
Proof.
  intros Hm. rewrite chars_pass_with_c2.
  destruct (c2 =? slash) eqn:Hc2; [|reflexivity].
  destruct f as [|b f]; [reflexivity|].
  cbn [marker] in Hm. rewrite Hc2 in Hm. cbn [andb] in Hm.
  change (comment_bytes false (Byte.x2f :: b :: f))
    with ((if false || ((code Byte.x2f =? slash) && (code b =? slash))
           then 1 else 0)
          + comment_bytes (false || ((code Byte.x2f =? slash) && (code b =? slash)))
                          (b :: f)).
  rewrite Hm, andb_false_r. reflexivity.
Qed.

(** Property X4.  For every file and every content of the storage of
    the uninitialised [c2], the first pass excludes the bytes that
    comments hold (from the first two slashes in a row of a line to the end
    of the line, the newline left out): in the file itself, unless [c2]
    holds a slash and the file begins with a slash, and then in the file
    with one more slash put before it; held in an [int]. *)
Theorem chars_pass_exact (f : FILE) (c2 : Z) :
  chars_pass f c2 0 =
  to_int (comment_bytes false (if marker c2 f then Byte.x2f :: f else f)).
Proof.
  destruct (marker c2 f) eqn:Hm.
  - rewrite chars_pass_with_c2.
    destruct f as [|b f]; cbn [marker] in Hm; [discriminate|].
    apply andb_true_iff in Hm as [-> _]. reflexivity.
  - apply chars_pass_unmarked. exact Hm.
Qed.

(** Property X5.  The first pass never excludes a newline: for a file of
    at most [INT_MAX] bytes read with a storage of [c2] that holds no
    slash, the excluded byte count lies between 0 and the number of bytes
    that are not newlines.  Whatever [c2] holds, it exceeds that number by
    one at most. *)
Theorem chars_pass_bounds (f : FILE) (c2 : Z) :
  Z.of_nat (List.length f) < INT_MAX ->
  0 <= chars_pass f c2 0 <= Z.of_nat (List.length f) - count_newlines f + 1 /\
  (c2 <> slash ->
   0 <= chars_pass f c2 0 <= Z.of_nat (List.length f) - count_newlines f).
Proof.
  intros Hfit. rewrite chars_pass_with_c2.
  pose proof (count_newlines_nonneg f) as Hnl.
  split.
  - destruct (c2 =? slash).
    + pose proof (comment_bytes_bounds (Byte.x2f :: f) false) as Hb.
      cbn [List.length count_newlines] in Hb.
      change (code "/"%byte =? newline) with false in Hb.
      rewrite to_int_small by (unfold INT_MIN; lia). lia.
    + pose proof (comment_bytes_bounds f false) as Hb.
      rewrite to_int_small by (unfold INT_MIN; lia). lia.
  - intros Hc2. apply Z.eqb_neq in Hc2. rewrite Hc2.
    pose proof (comment_bytes_bounds f false) as Hb.
    rewrite to_int_small by (unfold INT_MIN; lia). lia.
Qed.

Lemma chars_pass_bounds_witness :
  0 <= chars_pass foo_comment 0 0 <=
  Z.of_nat (List.length foo_comment) - count_newlines foo_comment.
Proof.
  apply (proj2 (chars_pass_bounds foo_comment 0 ltac:(vm_compute; reflexivity))).
  discriminate.
Defined.

(** Property X6.  With [-C], the byte count reported for a file is the
    number of its bytes that are outside comments, and its newlines are
    all kept: stated for a file of at most [INT_MAX] bytes and an
    [iswspace] that accepts no byte but the six of [wspace], unless the
    file begins with a slash while the storage of [c2] holds a slash when
    the first pass begins. *)
Theorem reported_bytes_are_uncommented (iswspace : Z -> bool) (f : FILE)
        (c2s : c2_values) :
  (forall b, iswspace (code b) = true -> wspace (code b) = true) ->
  Z.of_nat (List.length f) <= INT_MAX ->
  marker (fst c2s) f = false ->
  chars (adjusted (wc_count iswspace f)
                  (fst (exclusion c2s f)) (snd (exclusion c2s f)))
  = Z.of_nat (List.length (uncommented false f)) /\
  count_newlines (uncommented false f) = count_newlines f.
Proof.
  intros Hagree Hfit Hc2. split; [|apply uncommented_newlines].
  unfold adjusted, exclusion, int_sub. cbn [chars fst snd].
  rewrite (wc_chars_when_tests_agree iswspace f Hagree).
  rewrite (chars_pass_unmarked f (fst c2s) Hc2).
  rewrite to_int_sub_l, to_int_sub_r.
  pose proof (uncommented_length f false) as Hlen.
  pose proof (comment_bytes_bounds f false) as Hb.
  pose proof (count_newlines_nonneg f) as Hnl.
  rewrite to_int_small by (unfold INT_MIN; lia). lia.
Qed.

Lemma reported_bytes_are_uncommented_witness :
  chars (adjusted (wc_count iswspace_C foo_comment)
                  (fst (exclusion c2_slash foo_comment))
                  (snd (exclusion c2_slash foo_comment)))
  = Z.of_nat (List.length (uncommented false foo_comment)).
Proof.
  apply (reported_bytes_are_uncommented iswspace_C foo_comment c2_slash).
  - intros b H. exact H.
  - vm_compute. discriminate.
  - reflexivity.
Defined.

(** ** The second pass of [exclude_comments] *)

Lemma end_comment_to_int (c4 : Z) (nsb : bool) (e : Z) :
  end_comment c4 nsb (to_int e) =
  to_int (e + (if wspace c4 then 0 else 1) - (if nsb then 1 else 0)).
Proof.
  unfold end_comment.
  destruct (wspace c4); cbn [negb]; rewrite ?incr_to_int;
    destruct nsb; rewrite ?decr_to_int; apply f_equal; lia.
Qed.

Section SecondPassBounds.

Variable c2_at : nat -> Z.

(** What each loop of the second pass adds to [WORDS_EXCLUDED], between
    bounds given by the runs of bytes that [wspace] rejects in what is
    left of the file. *)
Lemma words_pass_adds (f : FILE) :
  (forall k, exists d,
      0 <= d <= run_starts wspace true f /\
      forall e, words_pass c2_at f k (to_int e) = to_int (e + d)) /\
  (forall (c2 : Z) (k : nat) (nsb : bool), exists d,
      0 <= d <= (if nsb then 0 else 1) + run_starts wspace false f /\
      forall e, words_token c2_at f c2 k nsb (to_int e) = to_int (e + d)) /\
  (forall (c4 : Z) (k : nat) (nsb : bool), exists d,
      (if wspace c4 then 0 else 1) - (if nsb then 1 else 0) <= d /\
      d <= (if wspace c4 then 0 else 1) + run_starts wspace (wspace c4) f
           - (if nsb then 1 else 0) /\
      forall e, words_comment c2_at f c4 k nsb (to_int e) = to_int (e + d)).
Proof.
  induction f as [|b f (IHpass & IHtoken & IHcomment)]; repeat split.
  - intros k. exists 0. cbn. repeat split; try lia.
    intros e. apply f_equal. lia.
  - intros c2 k nsb. exists 0. cbn [run_starts words_token].
    repeat split; try (destruct nsb; lia). intros e. apply f_equal. lia.
  - intros c4 k nsb.
    exists ((if wspace c4 then 0 else 1) - (if nsb then 1 else 0)).
    cbn [run_starts words_comment]. repeat split; try lia.
    intros e. rewrite end_comment_to_int. apply f_equal. lia.
  - (* words_pass *)
    intros k. cbn [words_pass run_starts]. cbv zeta.
    pose proof (run_starts_nonneg wspace f false) as Hnn.
    destruct (wspace (code b)) eqn:Hws; cbn [negb andb].
    + destruct (IHpass k) as (d & Hd & Hrun). exists d. split; [lia|exact Hrun].
    + destruct ((code b =? slash) && (c2_at k =? slash)).
      * destruct (IHcomment (code b) (S k) (negb (code b =? slash)))
          as (d & Hlo & Hhi & Hrun).
        rewrite Hws in Hlo, Hhi. exists d. split; [|exact Hrun].
        destruct (negb (code b =? slash)); lia.
      * destruct (IHtoken (code b) (S k) (negb (code b =? slash)))
          as (d & Hd & Hrun).
        exists d. split; [|exact Hrun].
        destruct (negb (code b =? slash)); lia.
  - (* words_token *)
    intros c2 k nsb. cbn [words_token run_starts]. cbv zeta.
    rewrite code_not_EOF.
    pose proof (run_starts_nonneg wspace f false) as Hnn.
    destruct (wspace (code b)) eqn:Hws; cbn [negb andb].
    + destruct (IHpass k) as (d & Hd & Hrun). exists d. split; [|exact Hrun].
      destruct nsb; lia.
    + destruct ((code b =? slash) && (c2 =? slash)).
      * destruct (IHcomment (code b) k nsb) as (d & Hlo & Hhi & Hrun).
        rewrite Hws in Hlo, Hhi. exists d. split; [|exact Hrun].
        destruct nsb; lia.
      * destruct (IHtoken (code b) k nsb) as (d & Hd & Hrun).
        exists d. split; [|exact Hrun]. lia.
  - (* words_comment *)
    intros c4 k nsb. cbn [words_comment run_starts]. cbv zeta.
    rewrite code_not_EOF.
    destruct (code b =? newline) eqn:Hnl; cbn [negb andb].
    + assert (wspace (code b) = true) as Hws
        by (apply Z.eqb_eq in Hnl; rewrite Hnl; reflexivity).
      rewrite Hws. cbn [negb andb].
      destruct (IHpass k) as (d & Hd & Hrun).
      exists ((if wspace c4 then 0 else 1) - (if nsb then 1 else 0) + d).
      repeat split; try (destruct (wspace c4); cbn [andb]; lia).
      intros e. rewrite end_comment_to_int, Hrun. apply f_equal. lia.
    + destruct (IHcomment (code b) k nsb) as (d & Hlo & Hhi & Hrun).
      exists ((if negb (wspace c4) && wspace (code b) then 1 else 0) + d).
      repeat split;
        try (destruct (wspace c4), (wspace (code b)); cbn [negb andb] in *; lia).
      intros e.
      assert ((if negb (wspace c4) && wspace (code b)
               then incr (to_int e) else to_int e)
              = to_int (e + (if negb (wspace c4) && wspace (code b) then 1 else 0)))
        as -> by (destruct (negb (wspace c4) && wspace (code b));
                  rewrite ?incr_to_int; apply f_equal; lia).
      rewrite Hrun. apply f_equal. lia.
Qed.

(** A file without a slash: no test on [c2] holds, nothing is
    excluded. *)
Lemma words_pass_no_slash (f : FILE) :
  Forall (fun b => (code b =? slash) = false) f ->
  (forall k e, words_pass c2_at f k e = e) /\
  (forall c2 k nsb e, words_token c2_at f c2 k nsb e = e).
Proof.
  induction 1 as [|b f Hb Hf [IHpass IHtoken]]; split; intros;
    cbn [words_pass words_token]; try reflexivity; cbv zeta;
    rewrite Hb; cbn [andb].
  - destruct (negb (wspace (code b))); [apply IHtoken|apply IHpass].
  - destruct (negb (wspace (code b)) && negb (code b =? EOF));
      [apply IHtoken|apply IHpass].
Qed.

End SecondPassBounds.

Lemma chars_pass_no_slash (f : FILE) :
  Forall (fun b => (code b =? slash) = false) f ->
  forall c2 e, chars_pass f c2 e = e.
Proof.
  induction 1 as [|b f Hb Hf IH]; intros c2 e; cbn [chars_pass];
    [reflexivity|].
  cbv zeta. rewrite Hb. cbn [andb]. apply IH.
Qed.

Lemma run_starts_ext (t1 t2 : Z -> bool) (s : list byte) :
  Forall (fun b => t1 (code b) = t2 (code b)) s ->
  forall prev, run_starts t1 prev s = run_starts t2 prev s.
Proof.
  induction 1 as [|b s Hb Hs IH]; intros prev; cbn [run_starts];
    [reflexivity|].
  rewrite Hb, IH. reflexivity.
Qed.

(** Property X7.  Whatever the storage of [c2] holds, the second pass
    excludes at least 0 words and at most as many words as the file has
    (its runs of bytes that [wspace] rejects), for a file of at most
    [INT_MAX] bytes.  So, when [iswspace] and [wspace] agree on the bytes
    of the file, the word count reported with [-C] is never negative and
    never more than the raw word count. *)
Theorem excluded_words_bounds (iswspace : Z -> bool) (f : FILE)
        (c2s : c2_values) :
  Z.of_nat (List.length f) <= INT_MAX ->
  0 <= snd (exclusion c2s f) <= count_runs wspace f /\
  (Forall (fun b => iswspace (code b) = wspace (code b)) f ->
   0 <= words (adjusted (wc_count iswspace f)
                        (fst (exclusion c2s f)) (snd (exclusion c2s f)))
     <= words (wc_count iswspace f)).
Proof.
  intros Hfit.
  assert (0 <= count_runs wspace f <= Z.of_nat (List.length f)) as Hruns.
  { unfold count_runs. split; [apply run_starts_nonneg|].
    clear Hfit. generalize true.
    induction f as [|b f IH]; intros prev; cbn [run_starts List.length]; [lia|].
    specialize (IH (wspace (code b))).
    destruct (prev && negb (wspace (code b))); lia. }
  destruct (proj1 (words_pass_adds (snd c2s) f) 0%nat) as (d & Hd & Hrun).
  fold (count_runs wspace f) in Hd.
  assert (snd (exclusion c2s f) = d) as Hex.
  { unfold exclusion. cbn [snd]. change (words_pass (snd c2s) f 0 0) with (words_pass (snd c2s) f 0 (to_int 0)).
    rewrite Hrun. apply to_int_small. unfold INT_MIN. lia. }
  split; [rewrite Hex; lia|].
  intros Hagree.
  assert (words (wc_count iswspace f) = count_runs wspace f) as Hraw.
  { unfold wc_count.
    rewrite (proj1 (wc_words_gen iswspace f) _ 0) by reflexivity.
    rewrite (run_starts_ext iswspace wspace f Hagree).
    fold (count_runs wspace f). apply to_int_small. unfold INT_MIN. lia. }
  unfold adjusted, int_sub. cbn [words]. rewrite Hex, Hraw.
  rewrite to_int_small by (unfold INT_MIN; lia). lia.
Qed.

Lemma excluded_words_bounds_witness :
  0 <= snd (exclusion c2_left_over comment_then_slash)
    <= count_runs wspace comment_then_slash.
Proof.
  exact (proj1 (excluded_words_bounds iswspace_C comment_then_slash c2_left_over
                  ltac:(vm_compute; discriminate))).
Defined.

(** ** The second pass and the file cut at its comments *)

Lemma newline_is_space (c : Z) :
  (c =? newline) = true -> wspace c = true /\ (c =? slash) = false.
Proof.
  intros H. apply Z.eqb_eq in H. subst c. split; reflexivity.
Qed.

Lemma slash_is_no_space (c : Z) :
  (c =? slash) = true -> wspace c = false /\ (c =? newline) = false.
Proof.
  intros H. apply Z.eqb_eq in H. subst c. split; reflexivity.
Qed.

Lemma space_is_no_slash (c : Z) : wspace c = true -> (c =? slash) = false.
Proof.
  intros H. destruct (c =? slash) eqn:Hs; [|reflexivity].
  destruct (slash_is_no_space c Hs) as [Hws _]. congruence.
Qed.

Lemma marker_not_slash (c : Z) (s : list byte) :
  (c =? slash) = false -> marker c s = false.
Proof.
  intros H. destruct s; cbn [marker]; [reflexivity|]. rewrite H. reflexivity.
Qed.

Lemma uncommented_cons (in_comment : bool) (a : byte) (t : list byte) :
  uncommented in_comment (a :: t) =
  if code a =? newline then a :: uncommented false t
  else if in_comment || marker (code a) t
       then uncommented (in_comment || marker (code a) t) t
       else a :: uncommented (in_comment || marker (code a) t) t.
Proof.
  reflexivity.
Qed.

(** What is kept of the rest of a line inside a comment is empty or begins
    with the newline: the byte before it does not matter. *)
Lemma uncommented_inside_runs (prev : bool) (s : list byte) :
  run_starts wspace prev (uncommented true s) =
  run_starts wspace true (uncommented true s).
Proof.
  induction s as [|a t IH]; [reflexivity|].
  rewrite uncommented_cons. cbn [orb].
  destruct (code a =? newline) eqn:Ha; [|exact IH].
  cbn [run_starts]. rewrite (proj1 (newline_is_space _ Ha)).
  cbn [negb]. rewrite !andb_false_r. reflexivity.
Qed.

Lemma uncommented_inside_led (prev : bool) (s : list byte) :
  slash_led prev (uncommented true s) = slash_led true (uncommented true s).
Proof.
  induction s as [|a t IH]; [reflexivity|].
  rewrite uncommented_cons. cbn [orb].
  destruct (code a =? newline) eqn:Ha; [|exact IH].
  cbn [slash_led]. rewrite (proj2 (newline_is_space _ Ha)).
  rewrite !andb_false_r. reflexivity.
Qed.

Lemma run_starts_le_length (iswspace : Z -> bool) (s : list byte) :
  forall prev, run_starts iswspace prev s <= Z.of_nat (List.length s).
Proof.
  induction s as [|b s IH]; intros prev; cbn [run_starts List.length]; [lia|].
  specialize (IH (iswspace (code b))).
  destruct (prev && negb (iswspace (code b))); lia.
Qed.

Section SecondPassCut.

Variable c2_at : nat -> Z.

(** On the first slash of a marker the loop of line 192 and the loop of
    line 188 go the same way. *)
Lemma words_comment_on_marker (f : FILE) (c2 : Z) (k : nat) (nsb : bool) (e : Z) :
  marker c2 f = true ->
  words_comment c2_at f c2 k nsb e = words_token c2_at f c2 k nsb e.
Proof.
  destruct f as [|m r]; cbn [marker]; [discriminate|].
  intros Hm. apply andb_true_iff in Hm as [Hc2 Hm].
  destruct (slash_is_no_space _ Hm) as [Hws Hnl].
  destruct (slash_is_no_space _ Hc2) as [Hws2 _].
  cbn [words_comment words_token]. cbv zeta.
  rewrite code_not_EOF, Hws, Hnl, Hm, Hc2, Hws2. reflexivity.
Qed.

(** What each loop of the second pass adds to [WORDS_EXCLUDED] when no
    token that is kept begins with a slash: the words of the rest of the
    file less the words of what is kept of it. *)
Lemma words_pass_cut (f : FILE) :
  (forall (k : nat),
      slash_led true (uncommented false f) = false ->
      forall e, words_pass c2_at f k (to_int e) =
                to_int (e + (run_starts wspace true f
                             - run_starts wspace true (uncommented false f)))) /\
  (forall (c2 : Z) (k : nat) (nsb : bool),
      wspace c2 = false ->
      slash_led false (uncommented (marker c2 f) f) = false ->
      nsb = true \/ marker c2 f = true ->
      forall e, words_token c2_at f c2 k nsb (to_int e) =
                to_int (e + ((if nsb then 0 else 1) + run_starts wspace false f
                             - run_starts wspace false
                                 (uncommented (marker c2 f) f)))) /\
  (forall (c4 : Z) (k : nat) (nsb : bool),
      slash_led true (uncommented true f) = false ->
      forall e, words_comment c2_at f c4 k nsb (to_int e) =
                to_int (e + ((if wspace c4 then 0 else 1) - (if nsb then 1 else 0)
                             + run_starts wspace (wspace c4) f
                             - run_starts wspace true (uncommented true f)))).
Proof.
  induction f as [|b f (IHpass & IHtoken & IHcomment)]; repeat split.
  - intros k _ e. cbn. apply f_equal. lia.
  - intros c2 k nsb _ _ [->|Hm]; [|discriminate]. intros e.
    cbn. apply f_equal. lia.
  - intros c4 k nsb _ e. cbn [words_comment uncommented run_starts].
    rewrite end_comment_to_int. apply f_equal. lia.
  - (* words_pass *)
    intros k Hled e. cbn [words_pass]. cbv zeta.
    rewrite uncommented_cons in Hled |- *. cbn [orb] in Hled |- *.
    destruct (code b =? newline) eqn:Hnl.
    { destruct (newline_is_space _ Hnl) as [Hws Hsl].
      cbn [slash_led] in Hled. rewrite Hws, Hsl in Hled. cbn [andb orb] in Hled.
      rewrite Hws. cbn [negb]. rewrite (IHpass k Hled).
      cbn [run_starts]. rewrite Hws. cbn [negb andb]. apply f_equal. lia. }
    destruct (wspace (code b)) eqn:Hws; cbn [negb].
    { pose proof (space_is_no_slash _ Hws) as Hsl.
      rewrite (marker_not_slash _ f Hsl) in Hled |- *.
      cbn [slash_led] in Hled. rewrite Hws, Hsl in Hled. cbn [andb orb] in Hled.
      rewrite (IHpass k Hled).
      cbn [run_starts]. rewrite Hws. cbn [negb andb]. apply f_equal. lia. }
    destruct (code b =? slash) eqn:Hsl; cbn [andb negb].
    + destruct (marker (code b) f) eqn:Hm.
      * assert (words_token c2_at f (code b) (S k) false (to_int e) =
                to_int (e + (1 + run_starts wspace false f
                             - run_starts wspace false (uncommented true f))))
          as Htoken.
        { pose proof (IHtoken (code b) (S k) false Hws) as IH.
          rewrite Hm in IH. apply IH; [|right; reflexivity].
          rewrite (uncommented_inside_led false). exact Hled. }
        assert ((if c2_at k =? slash
                 then words_comment c2_at f (code b) (S k) false (to_int e)
                 else words_token c2_at f (code b) (S k) false (to_int e))
                = words_token c2_at f (code b) (S k) false (to_int e)) as ->
          by (destruct (c2_at k =? slash);
              [apply words_comment_on_marker; exact Hm|reflexivity]).
        rewrite Htoken, (uncommented_inside_runs false).
        cbn [run_starts]. rewrite Hws. cbn [negb andb]. apply f_equal. lia.
      * cbn [slash_led] in Hled. rewrite Hsl in Hled. discriminate.
    + rewrite (marker_not_slash _ f Hsl) in Hled |- *.
      cbn [slash_led] in Hled. rewrite Hws, Hsl in Hled. cbn [andb orb] in Hled.
      pose proof (IHtoken (code b) (S k) true Hws) as IH.
      rewrite (marker_not_slash _ f Hsl) in IH.
      rewrite (IH Hled (or_introl eq_refl)).
      cbn [run_starts]. rewrite Hws. cbn [negb andb]. apply f_equal. lia.
  - (* words_token *)
    intros c2 k nsb Hc2 Hled Hnsb e. cbn [words_token]. cbv zeta.
    rewrite code_not_EOF. cbn [marker] in Hled, Hnsb |- *.
    rewrite uncommented_cons in Hled |- *.
    destruct (wspace (code b)) eqn:Hws; cbn [negb andb].
    { pose proof (space_is_no_slash _ Hws) as Hsl.
      rewrite Hsl, andb_false_r in Hled, Hnsb |- *.
      destruct Hnsb as [->|Hm]; [|discriminate].
      rewrite (marker_not_slash _ f Hsl) in Hled |- *. cbn [orb] in Hled |- *.
      assert (uncommented false (b :: f) = b :: uncommented false f) as Hkept.
      { rewrite uncommented_cons, (marker_not_slash _ f Hsl). cbn [orb].
        destruct (code b =? newline); reflexivity. }
      assert (slash_led true (uncommented false f) = false) as Hrest.
      { destruct (code b =? newline);
          cbn [slash_led] in Hled; rewrite Hws in Hled; exact Hled. }
      rewrite (IHpass k Hrest).
      assert ((if code b =? newline then b :: uncommented false f
               else b :: uncommented false f) = b :: uncommented false f) as ->
        by (destruct (code b =? newline); reflexivity).
      cbn [run_starts]. rewrite Hws. cbn [negb andb]. apply f_equal. lia. }
    assert ((code b =? newline) = false) as Hnl.
    { destruct (code b =? newline) eqn:Hnl; [|reflexivity].
      destruct (newline_is_space _ Hnl) as [Hws' _]. congruence. }
    rewrite Hnl in Hled |- *.
    destruct ((code b =? slash) && (c2 =? slash)) eqn:Hboth.
    + rewrite andb_comm in Hboth. rewrite Hboth in Hled |- *.
      cbn [orb] in Hled |- *.
      rewrite (uncommented_inside_led false) in Hled.
      rewrite (IHcomment (code b) k nsb Hled), Hws, (uncommented_inside_runs false).
      cbn [run_starts]. rewrite Hws. cbn [negb andb].
      apply f_equal. destruct nsb; lia.
    + rewrite andb_comm in Hboth. rewrite Hboth in Hled, Hnsb |- *.
      cbn [orb] in Hled |- *.
      destruct Hnsb as [->|Hm]; [|discriminate].
      assert (slash_led false (uncommented (marker (code b) f) f) = false /\
              run_starts wspace false
                (if marker (code b) f then uncommented (marker (code b) f) f
                 else b :: uncommented (marker (code b) f) f)
              = run_starts wspace false (uncommented (marker (code b) f) f))
        as [Hrest Hruns].
      { destruct (marker (code b) f); [split; [exact Hled|reflexivity]|].
        cbn [slash_led run_starts] in Hled |- *. rewrite Hws in Hled |- *.
        cbn [andb orb] in Hled |- *. split; [exact Hled|reflexivity]. }
      rewrite (IHtoken (code b) k true Hws Hrest (or_introl eq_refl)), Hruns.
      cbn [run_starts]. rewrite Hws. cbn [negb andb]. apply f_equal. lia.
  - (* words_comment *)
    intros c4 k nsb Hled e. cbn [words_comment]. cbv zeta.
    rewrite code_not_EOF. rewrite uncommented_cons in Hled |- *.
    cbn [orb] in Hled |- *.
    destruct (code b =? newline) eqn:Hnl; cbn [negb andb].
    + destruct (newline_is_space _ Hnl) as [Hws Hsl].
      cbn [slash_led] in Hled. rewrite Hws, Hsl in Hled. cbn [andb orb] in Hled.
      rewrite end_comment_to_int, (IHpass k Hled).
      cbn [run_starts]. rewrite Hws. cbn [negb]. rewrite !andb_false_r.
      apply f_equal. lia.
    + assert ((if negb (wspace c4) && wspace (code b)
               then incr (to_int e) else to_int e)
              = to_int (e + (if negb (wspace c4) && wspace (code b) then 1 else 0)))
        as -> by (destruct (negb (wspace c4) && wspace (code b));
                  rewrite ?incr_to_int; apply f_equal; lia).
      rewrite (IHcomment (code b) k nsb Hled).
      cbn [run_starts]. apply f_equal.
      destruct (wspace c4), (wspace (code b)); cbn [negb andb]; lia.
Qed.

End SecondPassCut.

Lemma counts_eq (a b : counts) :
  lines a = lines b -> words a = words b -> chars a = chars b -> a = b.
Proof.
  destruct a, b. cbn [lines words chars]. intros -> -> ->. reflexivity.
Qed.

Lemma excluded_words_cut (f : FILE) (c2s : c2_values) :
  slash_led true (uncommented false f) = false ->
  snd (exclusion c2s f) =
  to_int (count_runs wspace f - count_runs wspace (uncommented false f)).
Proof.
  intros Hled. unfold exclusion, count_runs. cbn [snd].
  change (words_pass (snd c2s) f 0 0)
    with (words_pass (snd c2s) f 0 (to_int 0)).
  rewrite (proj1 (words_pass_cut (snd c2s) f) 0%nat Hled). reflexivity.
Qed.

(** Property X8.  When no token of what is left of the file once its
    comments are cut begins with a slash, the second pass excludes, whatever
    the storage of [c2] holds, as many words as the cut removes: the words
    of the file less the words of the file cut at the first two slashes in
    a row of each line.  Stated for a file of at most [INT_MAX] bytes; the
    cut never adds a word. *)
Theorem excluded_words_are_cut_words (f : FILE) (c2s : c2_values) :
  Z.of_nat (List.length f) <= INT_MAX ->
  slash_led true (uncommented false f) = false ->
  snd (exclusion c2s f) =
  count_runs wspace f - count_runs wspace (uncommented false f) /\
  0 <= count_runs wspace (uncommented false f) <= count_runs wspace f.
Proof.
  intros Hfit Hled.
  pose proof (run_starts_le_length wspace f true) as Hle.
  pose proof (run_starts_nonneg wspace (uncommented false f) true) as Hnn.
  pose proof (run_starts_le_length wspace (uncommented false f) true) as Hcut.
  pose proof (uncommented_length f false) as Hlen.
  pose proof (comment_bytes_bounds f false) as Hcb.
  fold (count_runs wspace f) in Hle.
  fold (count_runs wspace (uncommented false f)) in Hnn, Hcut.
  assert (snd (exclusion c2s f) =
          count_runs wspace f - count_runs wspace (uncommented false f)) as Hex.
  { rewrite (excluded_words_cut f c2s Hled). apply to_int_small.
    pose proof (run_starts_nonneg wspace f true) as Hnn'.
    unfold count_runs, INT_MIN, INT_MAX in *. lia. }
  split; [exact Hex|]. split; [exact Hnn|].
  destruct (proj1 (words_pass_adds (snd c2s) f) 0%nat) as (d & Hd & Hrun).
  assert (snd (exclusion c2s f) = d) as Hd'.
  { unfold exclusion. cbn [snd].
    change (words_pass (snd c2s) f 0 0)
      with (words_pass (snd c2s) f 0 (to_int 0)).
    rewrite Hrun. apply to_int_small.
    fold (count_runs wspace f) in Hd. unfold INT_MIN. lia. }
  lia.
Qed.

Lemma excluded_words_are_cut_words_witness :
  snd (exclusion c2_slash foo_glued) =
  count_runs wspace foo_glued - count_runs wspace (uncommented false foo_glued) /\
  snd (exclusion c2_slash foo_glued) = 1.
Proof.
  pose proof (excluded_words_are_cut_words foo_glued c2_slash
                ltac:(vm_compute; discriminate) eq_refl) as [H _].
  split; [exact H|]. rewrite H. reflexivity.
Defined.

(** Property X9.  With [-C], the three counts reported for a file are the
    counts of the file cut at its comments, as the header of the source
    says ([sed 's://.*$::g' | wc]): for an [iswspace] that accepts the six
    bytes of [wspace] and no other byte, a file in which no token that the
    cut keeps begins with a slash, and unless the file begins with a slash
    while the storage of [c2] holds a slash when the first pass begins.
    Whatever else the storage of [c2] holds, and in [int] arithmetic on
    both sides. *)
Theorem reported_counts_are_cut_counts (iswspace : Z -> bool) (f : FILE)
        (c2s : c2_values) :
  (forall b : byte, iswspace (code b) = wspace (code b)) ->
  marker (fst c2s) f = false ->
  slash_led true (uncommented false f) = false ->
  adjusted (wc_count iswspace f) (fst (exclusion c2s f)) (snd (exclusion c2s f))
  = wc_count iswspace (uncommented false f).
Proof.
  intros Hagree Hc2 Hled.
  assert (forall b, iswspace (code b) = true -> wspace (code b) = true) as Hnarrow
    by (intros b Hb; rewrite <- Hagree; exact Hb).
  assert (iswspace newline = true) as Hnl by apply (Hagree Byte.x0a).
  assert (forall s, words (wc_count iswspace s) = to_int (count_runs wspace s))
    as Hwords.
  { intros s. unfold wc_count, count_runs.
    rewrite (proj1 (wc_words_gen iswspace s) _ 0) by reflexivity.
    rewrite (run_starts_ext iswspace wspace s)
      by (apply Forall_forall; intros b _; apply Hagree).
    reflexivity. }
  assert (forall s, lines (wc_count iswspace s) = to_int (count_newlines s))
    as Hlines.
  { intros s. unfold wc_count.
    rewrite (proj1 (wc_lines_gen iswspace Hnl s) _ 0) by reflexivity.
    reflexivity. }
  apply counts_eq; unfold adjusted, int_sub; cbn [lines words chars].
  - rewrite !Hlines, uncommented_newlines. reflexivity.
  - rewrite !Hwords, (excluded_words_cut f c2s Hled).
    rewrite to_int_sub_l, to_int_sub_r. apply f_equal. lia.
  - unfold exclusion. cbn [fst].
    rewrite !(wc_chars_when_tests_agree iswspace _ Hnarrow).
    rewrite (chars_pass_unmarked f (fst c2s) Hc2).
    rewrite to_int_sub_l, to_int_sub_r. apply f_equal.
    pose proof (uncommented_length f false). lia.
Qed.

Lemma reported_counts_are_cut_counts_witness :
  adjusted (wc_count iswspace_C foo_glued)
           (fst (exclusion c2_slash foo_glued)) (snd (exclusion c2_slash foo_glued))
  = wc_count iswspace_C (bytes "foo" ++ line_feed).
Proof.
  apply (reported_counts_are_cut_counts iswspace_C foo_glued c2_slash);
    [intros b; reflexivity|reflexivity|reflexivity].
Defined.

(** ** The flags and the arguments of [main] *)

(** Property X10.  The loop of lines 224 to 229 over the letters of a flag
    argument sees only which of [C], [w], [l] and [c] are there: two flag
    arguments that hold the same ones of these four letters, in any order,
    any number of times and among any other letters, leave the same state
    and the same [ellide_comments]; the loop never ends the process. *)
Theorem set_flags_letters (cs cs' : string) (e : bool) (s : state) :
  occurs "C" cs = occurs "C" cs' ->
  occurs "w" cs = occurs "w" cs' ->
  occurs "l" cs = occurs "l" cs' ->
  occurs "c" cs = occurs "c" cs' ->
  set_flags cs e s = set_flags cs' e s /\
  exists e' s', set_flags cs e s = Returns e' s'.
Proof.
  intros HC Hw Hl Hc. rewrite !set_flags_returns, HC, Hw, Hl, Hc.
  split; [reflexivity|]. eexists. eexists. reflexivity.
Qed.

Lemma set_flags_letters_witness :
  set_flags "lxwl" false (initial two_files) =
  set_flags "wl" false (initial two_files).
Proof.
  exact (proj1 (set_flags_letters "lxwl" "wl" false (initial two_files)
                  eq_refl eq_refl eq_refl eq_refl)).
Defined.

Lemma handled_stops (files : string -> option (list byte)) (args rest : list string) :
  all_readable files args = false ->
  handled files (args ++ rest) = handled files args.
Proof.
  induction args as [|arg args IH]; cbn [all_readable forallb handled app];
    [discriminate|].
  fold (all_readable files args).
  destruct (is_flag arg || readable files arg); cbn [andb]; [|reflexivity].
  intros H. rewrite (IH H). reflexivity.
Qed.

(** Property X11.  Flag arguments that come after the last file argument
    change nothing: the run writes the same output and ends with the same
    status as without them.  Stated for the runs in which a file that
    exists always opens. *)
Theorem trailing_flags_ignored
        (iswspace : Z -> bool) (unreadable : nat -> bool)
        (scratch : nat -> c2_values) (stdin : list byte) (temp : temp_env)
        (files : string -> option (list byte)) (args flags : list string) :
  (forall n, unreadable n = false) ->
  file_args args <> [] ->
  Forall (fun a => is_flag a = true) flags ->
  run iswspace unreadable scratch stdin temp files (args ++ flags) =
  run iswspace unreadable scratch stdin temp files args.
Proof.
  intros Hopen Hfile Hflags.
  rewrite !(run_spec iswspace unreadable scratch stdin temp files Hopen).
  assert (default_rule (args ++ flags) = default_rule args) as Hrule
    by (destruct args; [contradiction|reflexivity]).
  assert (file_lines [] (args ++ flags) = file_lines [] args) as Hlines
    by (rewrite file_lines_app, (all_flags_no_line flags Hflags); apply app_nil_r).
  assert (file_args (args ++ flags) = file_args args) as Hargs
    by (unfold file_args; rewrite filter_app;
        fold (file_args flags); rewrite (all_flags_no_file flags Hflags);
        apply app_nil_r).
  rewrite all_readable_app, (all_flags_readable files flags Hflags), andb_true_r.
  destruct (all_readable files args) eqn:Hread.
  - unfold expected_output, file_output, total_line, stdin_line, reports.
    rewrite Hrule, Hlines, Hargs.
    destruct (file_args args) as [|name names]; [contradiction|]. reflexivity.
  - unfold file_output. rewrite Hrule, (handled_stops files args flags Hread).
    reflexivity.
Qed.

Lemma trailing_flags_ignored_witness :
  run iswspace_C never zeros [] ordinary two_files
      ["-l"%string; "f1"%string; "-w"%string; "-C"%string] =
  run iswspace_C never zeros [] ordinary two_files ["-l"%string; "f1"%string].
Proof.
  apply (trailing_flags_ignored iswspace_C never zeros [] ordinary two_files
           ["-l"%string; "f1"%string] ["-w"%string; "-C"%string]).
  - reflexivity.
  - discriminate.
  - repeat constructor.
Defined.

Lemma no_total_file_output
      (iswspace : Z -> bool) (scratch : nat -> c2_values)
      (files : string -> option (list byte)) (all : bool)
      (entries : list (list string * string)) :
  no_total (List.concat (map (line_events iswspace scratch files all) entries)) = true.
Proof.
  induction entries as [|entry entries IH]; [reflexivity|].
  cbn [map List.concat]. rewrite no_total_app, IH. unfold line_events.
  rewrite no_total_app, no_total_display. reflexivity.
Qed.

(** Property X12.  The line of totals is written in the runs with two file
    arguments or more that all exist, and in no other run: not for a single
    file, not for standard input, and not when a file is missing.  Stated
    for the runs in which a file that exists always opens. *)
Theorem total_line_written
        (iswspace : Z -> bool) (unreadable : nat -> bool)
        (scratch : nat -> c2_values) (stdin : list byte) (temp : temp_env)
        (files : string -> option (list byte)) (args : list string) :
  (forall n, unreadable n = false) ->
  no_total (snd (run iswspace unreadable scratch stdin temp files args)) =
  negb ((1 <? List.length (file_args args))%nat && all_readable files args).
Proof.
  intros Hopen.
  rewrite (run_spec iswspace unreadable scratch stdin temp files Hopen).
  assert (no_total (expected_output iswspace scratch stdin files args) =
          negb (1 <? List.length (file_args args))%nat) as Hexp.
  { unfold expected_output, file_output, total_line, stdin_line.
    rewrite !no_total_app, no_total_file_output.
    destruct (1 <? List.length (file_args args))%nat; cbn [negb andb no_total forallb].
    + reflexivity.
    + destruct (List.length (file_args args) =? 0)%nat; [|reflexivity].
      rewrite no_total_app, no_total_display. reflexivity. }
  destruct (all_readable files args).
  - rewrite andb_true_r.
    destruct ((List.length (file_args args) =? 0)%nat && negb (writable temp))
      eqn:Hcrash; cbn [snd]; [|exact Hexp].
    apply andb_true_iff in Hcrash as [Hzero _]. apply Nat.eqb_eq in Hzero.
    rewrite Hzero. reflexivity.
  - rewrite andb_false_r. cbn [snd]. unfold file_output.
    apply no_total_file_output.
Qed.

Lemma total_line_written_witness :
  no_total (snd (run iswspace_C never zeros [] ordinary two_files ["f1"%string])) = true /\
  no_total (snd (run iswspace_C never zeros [] ordinary two_files
                     ["f1"%string; "f2"%string])) = false.
Proof.
  split.
  - apply (total_line_written iswspace_C never zeros [] ordinary two_files ["f1"%string]).
    reflexivity.
  - apply (total_line_written iswspace_C never zeros [] ordinary two_files
             ["f1"%string; "f2"%string]).
    reflexivity.
Defined.

(** ** Standard input and [temp.txt] *)

Lemma staged_bounds (input : list byte) :
  forall room cut,
    Forall (fun b => code b <> 0) (staged input room cut) /\
    (List.length (staged input room cut) <= List.length input)%nat.
Proof.
  induction input as [|b r IH]; intros room cut; cbn [staged];
    [split; [constructor|reflexivity]|].
  cbv zeta.
  assert (Forall (fun b => code b <> 0)
                 (if cut || (code b =? 0) then [] else [b]) /\
          (List.length (if cut || (code b =? 0)%Z then [] else [b]) <= 1)%nat)
    as [Hkept Hlen].
  { destruct (cut || (code b =? 0)) eqn:Hcut; cbn [List.length];
      (split; [|lia]); [constructor|].
    apply orb_false_elim in Hcut as [_ Hb]. apply Z.eqb_neq in Hb.
    repeat constructor. exact Hb. }
  destruct ((code b =? newline) || Nat.eqb room 1);
    [destruct (IH 9%nat false) as [IHall IHlen]
    |destruct (IH (pred room) (cut || (code b =? 0))) as [IHall IHlen]];
    (split; [apply Forall_app; split; assumption
            |rewrite length_app; cbn [List.length]; lia]).
Qed.

Lemma staged_plain (input : list byte) :
  Forall (fun b => code b <> 0) input ->
  forall room, staged input room false = input.
Proof.
  induction 1 as [|b r Hb Hr IH]; intros room; cbn [staged]; [reflexivity|].
  cbv zeta. apply Z.eqb_neq in Hb. rewrite Hb. cbn [orb app].
  destruct ((code b =? newline) || Nat.eqb room 1); rewrite IH; reflexivity.
Qed.

Lemma staged_Forall (P : byte -> Prop) (input : list byte) :
  Forall P input -> forall room cut, Forall P (staged input room cut).
Proof.
  induction 1 as [|b r Hb Hr IH]; intros room cut; cbn [staged]; [constructor|].
  cbv zeta.
  assert (Forall P (if cut || (code b =? 0) then [] else [b])) as Hkept
    by (destruct (cut || (code b =? 0)); repeat constructor; exact Hb).
  destruct ((code b =? newline) || Nat.eqb room 1);
    apply Forall_app; split; try exact Hkept; apply IH.
Qed.

(** Property X13.  What reaches [temp.txt] from standard input (lines 244
    to 249) holds no NUL byte and is not longer than the input, and it is
    the input itself when the input holds no NUL byte, whatever the lengths
    of its lines. *)
Theorem staged_text (input : list byte) :
  Forall (fun b => code b <> 0) (staged input 9 false) /\
  (List.length (staged input 9 false) <= List.length input)%nat /\
  (Forall (fun b => code b <> 0) input -> staged input 9 false = input).
Proof.
  destruct (staged_bounds input 9 false) as [Hall Hlen].
  split; [exact Hall|]. split; [exact Hlen|].
  intros Hplain. apply staged_plain. exact Hplain.
Qed.

Lemma staged_text_witness :
  staged (bytes "a line of more than nine bytes" ++ line_feed) 9 false =
  (bytes "a line of more than nine bytes" ++ line_feed)%list /\
  staged with_nul 9 false = bytes "ab".
Proof.
  split; [|reflexivity].
  apply (proj2 (proj2 (staged_text
                         (bytes "a line of more than nine bytes" ++ line_feed)))).
  repeat constructor; discriminate.
Defined.



Lemma file_lines_prefixed (p : string) (args : list string) :
  forall before,
    file_lines (p :: before) args =
    map (fun entry => (p :: fst entry, snd entry)) (file_lines before args).
Proof.
  induction args as [|arg args IH]; intros before; cbn [file_lines];
    [reflexivity|].
  change ((p :: before) ++ [arg])%list with (p :: (before ++ [arg]))%list.
  rewrite IH. destruct (is_flag arg); reflexivity.
Qed.

Lemma exclusion_no_slash (c2s : c2_values) (f : FILE) :
  Forall (fun b => (code b =? slash) = false) f -> exclusion c2s f = (0, 0).
Proof.
  intros Hf. unfold exclusion.
  rewrite (chars_pass_no_slash f Hf).
  rewrite (proj1 (words_pass_no_slash (snd c2s) f Hf)). reflexivity.
Qed.

(** Property X15.  On files and a standard input that hold no slash, [-C]
    changes nothing: the run with [-C] put before arguments that show the
    three counts writes what the run without it writes, and ends with the
    same status, whatever the storage of [c2] holds.  Stated for the runs
    in which a file that exists always opens. *)
Theorem comments_flag_without_slash
        (iswspace : Z -> bool) (unreadable : nat -> bool)
        (scratch : nat -> c2_values) (stdin : list byte) (temp : temp_env)
        (files : string -> option (list byte)) (args : list string) :
  (forall n, unreadable n = false) ->
  default_rule args = true ->
  (forall name f, files name = Some f ->
                  Forall (fun b => (code b =? slash) = false) f) ->
  Forall (fun b => (code b =? slash) = false) stdin ->
  run iswspace unreadable scratch stdin temp files ("-C"%string :: args) =
  run iswspace unreadable scratch stdin temp files args.
Proof.
  intros Hopen Hrule Hfiles Hstdin.
  rewrite !(run_spec iswspace unreadable scratch stdin temp files Hopen).
  assert (forall before name,
             report iswspace scratch files ("-C"%string :: before) name =
             report iswspace scratch files before name) as Hreport.
  { intros before name. unfold report. cbv zeta.
    assert (exclusion (scratch (S (List.length (file_args before))))
                      (content files name) = (0, 0)) as Hex.
    { apply exclusion_no_slash. unfold content.
      destruct (files name) as [f|] eqn:Hname; [|constructor].
      exact (Hfiles name f Hname). }
    change (file_args ("-C"%string :: before)) with (file_args before).
    rewrite Hex. destruct (requested "C" ("-C"%string :: before)),
                          (requested "C" before); reflexivity. }
  assert (forall shown,
             List.concat (map (line_events iswspace scratch files true)
                              (file_lines ["-C"%string] shown)) =
             List.concat (map (line_events iswspace scratch files true)
                              (file_lines [] shown))) as Hout.
  { intros shown. rewrite file_lines_prefixed, map_map. apply f_equal.
    apply map_ext. intros [before name]. unfold line_events. cbn [fst snd orb].
    rewrite Hreport. reflexivity. }
  assert (reports iswspace scratch files ("-C"%string :: args) =
          reports iswspace scratch files args) as Hreports.
  { unfold reports.
    change (file_lines [] ("-C"%string :: args)) with (file_lines ["-C"%string] args).
    rewrite file_lines_prefixed, map_map. apply map_ext.
    intros [before name]. cbn [fst snd]. apply Hreport. }
  change (all_readable files ("-C"%string :: args)) with (all_readable files args).
  change (handled files ("-C"%string :: args))
    with ("-C"%string :: handled files args).
  unfold expected_output, file_output, total_line, stdin_line, stdin_report.
  change (default_rule ("-C"%string :: args)) with true.
  change (file_args ("-C"%string :: args)) with (file_args args).
  change (file_lines [] ("-C"%string :: args)) with (file_lines ["-C"%string] args).
  change (file_lines [] ("-C"%string :: handled files args))
    with (file_lines ["-C"%string] (handled files args)).
  rewrite Hrule, !Hout, Hreports. cbn [orb].
  rewrite (exclusion_no_slash (scratch 0%nat) (staged stdin 9 false))
    by (apply staged_Forall; exact Hstdin).
  destruct (all_readable files args); [|reflexivity].
  destruct (requested "C" ("-C"%string :: args)), (requested "C" args);
    reflexivity.
Qed.

Lemma comments_flag_without_slash_witness :
  run iswspace_C never (fun _ => c2_slash) [] ordinary plain_files
      ["-C"%string; "f1"%string; "f1"%string] =
  run iswspace_C never (fun _ => c2_slash) [] ordinary plain_files
      ["f1"%string; "f1"%string].
Proof.
  apply (comments_flag_without_slash iswspace_C never (fun _ => c2_slash) []
           ordinary plain_files ["f1"%string; "f1"%string]).
  - reflexivity.
  - reflexivity.
  - intros name f. unfold plain_files.
    destruct (String.eqb name "f1"); [|discriminate].
    intros [= <-]. repeat constructor.
  - constructor.
Defined.

(** ** The directory after a run *)





Section Directory.

Variable iswspace : Z -> bool.
Variable unreadable : nat -> bool.
Variable scratch : nat -> c2_values.
Variable stdin : list byte.
Variable temp : temp_env.





End Directory.




(** ** What a line shows, and how a run ends *)

(** Property X17.  What the code shows on each line.  When no argument is
    given, or the first argument is not a flag, or is exactly [-C], the
    line of every file shows the three counts, lines then words then
    bytes, whatever flags follow.  Otherwise the line of a file shows the
    counts whose letters occur in the flag arguments that come before that
    file on the command line, in the same order.  The line for standard
    input follows the same rule with all the arguments.  The files that
    have a line are those that come before the first file that is missing,
    all of them when none is; the line of totals and the line of standard
    input are for the runs in which none is missing.  Stated for the runs
    in which a file that exists always opens and, when standard input is
    read, [temp.txt] can be opened for writing. *)
Theorem shown_counts
        (iswspace : Z -> bool) (unreadable : nat -> bool)
        (scratch : nat -> c2_values) (stdin : list byte) (temp : temp_env)
        (files : string -> option (list byte)) (args : list string) :
  (forall n, unreadable n = false) ->
  (file_args args = [] -> writable temp = true) ->
  (default_rule args = true ->
   snd (run iswspace unreadable scratch stdin temp files args) =
   List.concat
     (map (fun entry =>
             let n := report iswspace scratch files (fst entry) (snd entry) in
             [Count (lines n); Count (words n); Count (chars n); Name (snd entry)])
          (file_lines [] (handled files args)))
   ++ (if all_readable files args then
         total_line iswspace scratch files args
         ++ (if (List.length (file_args args) =? 0)%nat
             then let n := stdin_report iswspace scratch stdin args in
                  [Count (lines n); Count (words n); Count (chars n); Newline]
             else [])
       else [])) /\
  (default_rule args = false ->
   snd (run iswspace unreadable scratch stdin temp files args) =
   List.concat
     (map (fun entry =>
             display (requested "l" (fst entry)) (requested "w" (fst entry))
                     (requested "c" (fst entry))
                     (report iswspace scratch files (fst entry) (snd entry))
             ++ [Name (snd entry)])
          (file_lines [] (handled files args)))
   ++ (if all_readable files args then
         total_line iswspace scratch files args
         ++ (if (List.length (file_args args) =? 0)%nat
             then display (requested "l" args) (requested "w" args)
                          (requested "c" args)
                          (stdin_report iswspace scratch stdin args)
                  ++ [Newline]
             else [])
       else [])).
Proof.
  intros Hopen Hwrite.
  rewrite (run_spec iswspace unreadable scratch stdin temp files Hopen).
  assert ((List.length (file_args args) =? 0)%nat && negb (writable temp) = false)
    as ->.
  { destruct (file_args args); [|reflexivity].
    rewrite (Hwrite eq_refl). reflexivity. }
  destruct (all_readable files args) eqn:Hread; cbn [snd].
  - rewrite (handled_all files args Hread).
    unfold expected_output, file_output, stdin_line, line_events.
    split; intros ->; cbn [orb]; reflexivity.
  - unfold file_output, line_events. rewrite !app_nil_r.
    split; intros ->; cbn [orb]; reflexivity.
Qed.

Lemma shown_counts_witness :
  snd (run iswspace_C never zeros [] ordinary two_files
           ["f1"%string; "-l"%string; "f2"%string]) =
  [Count 1; Count 4; Count 15; Name "f1"; Count 1; Count 2; Count 12; Name "f2";
   Total 2 6 27] /\
  snd (run iswspace_C never zeros [] ordinary two_files
           ["-l"%string; "f1"%string; "-w"%string; "f2"%string]) =
  [Count 1; Name "f1"; Count 1; Count 2; Name "f2"; Total 2 6 27] /\
  snd (run iswspace_C never zeros hello_world ordinary two_files ["-w"%string]) =
  [Count 2; Newline].
Proof.
  split; [|split].
  - apply (proj1 (shown_counts iswspace_C never zeros [] ordinary two_files
                    ["f1"%string; "-l"%string; "f2"%string] (fun n => eq_refl)
                    (fun _ => eq_refl))).
    reflexivity.
  - apply (proj2 (shown_counts iswspace_C never zeros [] ordinary two_files
                    ["-l"%string; "f1"%string; "-w"%string; "f2"%string]
                    (fun n => eq_refl) (fun _ => eq_refl))).
    reflexivity.
  - apply (proj2 (shown_counts iswspace_C never zeros hello_world ordinary
                    two_files ["-w"%string] (fun n => eq_refl)
                    (fun _ => eq_refl))).
    reflexivity.
Defined.



